(** * daikinone climate adapter: mode translation and command sequencing

    A shallow embedding of [homeassistant/components/daikinone/climate.py]:
    the two static translation tables, the reverse lookups built on
    [list.index], the property getters of [DaikinNADevice] that derive the
    host state from the vendor's cached device data, and the three setter
    coroutines, whose calls to the vendor device are recorded in a trace.
    The set-up and unload of a configuration entry ([__init__.py]) and the
    climate platform's set-up follow, over the [hass.data[DOMAIN]] slot. *)

From Stdlib Require Import ZArith QArith List String Bool Lia.
Import ListNotations.
Local Open Scope Z_scope.
Local Open Scope string_scope.

(** ** Python values, exceptions and results *)

(** The values the adapter passes around without looking inside them: the
    argument of [set_device_value] and the cached vendor fields. *)
Inductive pyval : Type :=
| PNone
| PBool (b : bool)
| PInt (z : Z)
| PFloat (q : Q)
| PStr (s : string).

(** [x is None]. *)
Definition is_None (x : pyval) : bool :=
  match x with PNone => true | _ => false end.

(** The exceptions that occur: [KeyError] from a dict subscript,
    [ValueError] from [list.index], [IndexError] from a list subscript,
    the host's [UpdateFailed], and [OtherException] for any other instance
    of [Exception] the vendor library may raise. All of them derive from
    [Exception], which is what [except Exception] catches. *)
Inductive exn : Type :=
| KeyError
| ValueError
| IndexError
| UpdateFailed (msg : string)
| OtherException (name : string).

Inductive result (A : Type) : Type :=
| Ok (a : A)
| Raise (e : exn).
Arguments Ok {A} a.
Arguments Raise {A} e.

(** ** Python dicts in insertion order

    The reverse lookups go through [list(d.keys())] and [list(d.values())],
    so the order of the entries matters: a dict is the list of its items in
    insertion order (the literals below have pairwise distinct keys). *)
Module PyDict.
Section Dict.
Context {K V : Type}.
Variable K_eq_dec : forall a b : K, {a = b} + {a <> b}.
Variable V_eq_dec : forall a b : V, {a = b} + {a <> b}.

Definition dict : Type := list (K * V).

(** [list(d.keys())] and [list(d.values())]. *)
Definition keys (d : dict) : list K := map fst d.
Definition values (d : dict) : list V := map snd d.

(** [d.get(k)]: the first (only) item with key [k], [None] without one. *)
Fixpoint get (d : dict) (k : K) : option V :=
  match d with
  | [] => None
  | (k', v) :: d' => if K_eq_dec k' k then Some v else get d' k
  end.

(** [d[k]]: raises [KeyError] on an absent key. *)
Definition getitem (d : dict) (k : K) : result V :=
  match get d k with
  | Some v => Ok v
  | None => Raise KeyError
  end.

(** [l.index(x)]: position of the first element equal to [x],
    [ValueError] when there is none. *)
Fixpoint index (l : list V) (x : V) : result nat :=
  match l with
  | [] => Raise ValueError
  | y :: l' =>
      if V_eq_dec y x then Ok O
      else match index l' x with
           | Ok i => Ok (S i)
           | Raise e => Raise e
           end
  end.

(** [l[i]] for a non-negative [i]. *)
Definition subscript (l : list K) (i : nat) : result K :=
  match nth_error l i with
  | Some k => Ok k
  | None => Raise IndexError
  end.

(** [list(d.keys())[list(d.values()).index(v)]]. *)
Definition reverse_lookup (d : dict) (v : V) : result K :=
  match index (values d) v with
  | Ok i => subscript (keys d) i
  | Raise e => Raise e
  end.

End Dict.
End PyDict.

(** ** Host vocabulary *)

(** Modelled from the spec: the host platform's [HVACMode] enumeration
    ([homeassistant.components.climate]), which [climate.py] imports and
    whose declaration is not among the sources. The table below names five
    of its members and the code names [OFF]; the host declares one more,
    [AUTO], which the adapter never mentions. *)
Inductive HVACMode : Type :=
| OFF | HEAT | COOL | HEAT_COOL | AUTO | DRY | FAN_ONLY.

Definition HVACMode_eq_dec (a b : HVACMode) : {a = b} + {a <> b}.
Proof. decide equality. Defined.

(** [a == b] and [a != b] on modes. *)
Definition HVACMode_eqb (a b : HVACMode) : bool :=
  if HVACMode_eq_dec a b then true else false.

(** Modelled from the spec: the host platform's fan mode identifiers
    ([FAN_AUTO], [FAN_LOW], [FAN_MEDIUM], [FAN_HIGH] of
    [homeassistant.components.climate]), plain strings whose declarations
    are not among the sources. *)
Definition FAN_AUTO : string := "auto".
Definition FAN_LOW : string := "low".
Definition FAN_MEDIUM : string := "medium".
Definition FAN_HIGH : string := "high".

(** Modelled from the spec: the host's keyword for the temperature argument
    ([ATTR_TEMPERATURE] of [homeassistant.const]). *)
Definition ATTR_TEMPERATURE : string := "temperature".

(** ** The translation tables *)

Definition DKN_MODE_TO_HVAC_MODE : PyDict.dict (K := Z) (V := HVACMode) :=
  [ (5, DRY);
    (4, FAN_ONLY);
    (3, HEAT);
    (2, COOL);
    (1, HEAT_COOL) ].

Definition DKN_MODE_TO_FAN_MODE : PyDict.dict (K := Z) (V := string) :=
  [ (0, FAN_AUTO); (2, FAN_LOW); (4, FAN_MEDIUM); (6, FAN_HIGH) ].

Definition _hvac_mode_to_dkn_mode (hvac_mode : HVACMode) : result Z :=
  PyDict.reverse_lookup HVACMode_eq_dec DKN_MODE_TO_HVAC_MODE hvac_mode.

Definition _fan_mode_to_dkn_mode (fan_mode : string) : result Z :=
  PyDict.reverse_lookup string_dec DKN_MODE_TO_FAN_MODE fan_mode.

(** ** The vendor device

    [DeviceData] holds the cached fields the adapter reads. [power] is
    tested with [is False] and [is True], so a value that is neither (the
    field not reported yet) is kept apart as [None]. The mode and speed
    codes are the vendor's integers; the temperatures are passed through. *)
Record DeviceData : Type := {
  power : option bool;
  mode : Z;
  real_mode : Z;
  speed_state : Z;
  work_temp : pyval;
  setpoint_air_cool : pyval;
  setpoint_air_heat : pyval;
  setpoint_air_auto : pyval
}.

(** [p is False] and [p is True]. *)
Definition is_False (p : option bool) : bool :=
  match p with Some false => true | _ => false end.

Definition is_True (p : option bool) : bool :=
  match p with Some true => true | _ => false end.

(** The vendor's [DaikinDevice] as the adapter sees it: the cached data and,
    for every [set_device_value(name, value)], the exception the call
    raises, if any. A setter does not change the cached data; that arrives
    later through the update callback. *)
Record DaikinDevice : Type := {
  device_data : DeviceData;
  raises : string -> pyval -> option exn
}.

(** ** Coroutines: a trace of issued calls and a result *)

Inductive event : Type :=
| SetDeviceValue (name : string) (value : pyval)
| ScheduleUpdateHaState.

(** A run of a coroutine: the calls it issued, in order, and how it ended. *)
Definition action (A : Type) : Type := (list event * result A)%type.

Definition ret {A : Type} (a : A) : action A := ([], Ok a).

Definition raise {A : Type} (e : exn) : action A := ([], Raise e).

Definition lift {A : Type} (r : result A) : action A := ([], r).

Definition bind {A B : Type} (c : action A) (k : A -> action B) : action B :=
  match c with
  | (tr, Ok a) => let (tr', r) := k a in ((tr ++ tr')%list, r)
  | (tr, Raise e) => (tr, Raise e)
  end.

Notation "x <- c ;; k" := (bind c (fun x => k))
  (at level 61, c at next level, right associativity).
Notation "c ;; k" := (bind c (fun _ => k))
  (at level 61, right associativity).

(** [try: c except Exception: handler]. *)
Definition try_except {A : Type} (c : action A) (handler : exn -> action A)
  : action A :=
  match c with
  | (tr, Raise e) => let (tr', r) := handler e in ((tr ++ tr')%list, r)
  | (tr, Ok a) => (tr, Ok a)
  end.

(** [await self._device.set_device_value(name, value)]: the call is issued
    and then returns or raises as the vendor decides. *)
Definition set_device_value (self : DaikinDevice) (name : string)
  (value : pyval) : action unit :=
  ([SetDeviceValue name value],
   match raises self name value with
   | Some e => Raise e
   | None => Ok tt
   end).

Definition schedule_update_ha_state : action unit :=
  ([ScheduleUpdateHaState], Ok tt).

(** The vendor set calls of a trace. *)
Definition vendor_calls (tr : list event) : list event :=
  filter (fun ev => match ev with SetDeviceValue _ _ => true | _ => false end)
         tr.

(** ** Property getters of [DaikinNADevice] *)

(** Returns [HVACMode.OFF] or the defaulting lookup of [real_mode]. *)
Definition hvac_action (self : DaikinDevice) : option HVACMode :=
  if is_False (power (device_data self)) then Some OFF
  else PyDict.get Z.eq_dec DKN_MODE_TO_HVAC_MODE
         (real_mode (device_data self)).

Definition hvac_mode (self : DaikinDevice) : result HVACMode :=
  if is_False (power (device_data self)) then Ok OFF
  else PyDict.getitem Z.eq_dec DKN_MODE_TO_HVAC_MODE
         (mode (device_data self)).

Definition current_temperature (self : DaikinDevice) : pyval :=
  work_temp (device_data self).

(** The property [hvac_mode] is evaluated anew by each comparison. *)
Definition target_temperature (self : DaikinDevice) : result pyval :=
  match hvac_mode self with
  | Raise e => Raise e
  | Ok m1 =>
      if HVACMode_eqb m1 COOL then Ok (setpoint_air_cool (device_data self))
      else
        match hvac_mode self with
        | Raise e => Raise e
        | Ok m2 =>
            if HVACMode_eqb m2 HEAT
            then Ok (setpoint_air_heat (device_data self))
            else
              match hvac_mode self with
              | Raise e => Raise e
              | Ok m3 =>
                  if HVACMode_eqb m3 HEAT_COOL
                  then Ok (setpoint_air_auto (device_data self))
                  else Ok PNone
              end
        end
  end.

Definition fan_mode (self : DaikinDevice) : result string :=
  PyDict.getitem Z.eq_dec DKN_MODE_TO_FAN_MODE
    (speed_state (device_data self)).

Definition fan_modes : list string := PyDict.values DKN_MODE_TO_FAN_MODE.

(** ** Setter coroutines of [DaikinNADevice] *)

Definition async_set_hvac_mode (self : DaikinDevice) (hvac_mode : HVACMode)
  : action unit :=
  let current_power_state := is_True (power (device_data self)) in
  let new_power_state := negb (HVACMode_eqb hvac_mode OFF) in
  (if new_power_state
   then code <- lift (_hvac_mode_to_dkn_mode hvac_mode) ;;
        set_device_value self "mode" (PInt code)
   else ret tt) ;;
  if negb (Bool.eqb new_power_state current_power_state)
  then set_device_value self "power" (PBool new_power_state) ;;
       schedule_update_ha_state
  else ret tt.

Definition async_set_fan_mode (self : DaikinDevice) (fan_mode : string)
  : action unit :=
  code <- lift (_fan_mode_to_dkn_mode fan_mode) ;;
  set_device_value self "speed_state" (PInt code).

(** [kwargs.get(key)]: the value, or [None] for an absent keyword. *)
Definition kwargs_get (kwargs : PyDict.dict (K := string) (V := pyval))
  (key : string) : pyval :=
  match PyDict.get string_dec kwargs key with
  | Some v => v
  | None => PNone
  end.

Definition async_set_temperature (self : DaikinDevice)
  (kwargs : PyDict.dict (K := string) (V := pyval)) : action unit :=
  let temperature := kwargs_get kwargs ATTR_TEMPERATURE in
  if is_None temperature
  then raise (UpdateFailed "No target temperature specified")
  else
    property_to_update <-
      (m1 <- lift (hvac_mode self) ;;
       if HVACMode_eqb m1 COOL then ret "setpoint_air_cool"
       else
         m2 <- lift (hvac_mode self) ;;
         if HVACMode_eqb m2 HEAT then ret "setpoint_air_heat"
         else
           m3 <- lift (hvac_mode self) ;;
           if HVACMode_eqb m3 HEAT_COOL then ret "setpoint_air_auto"
           else raise (UpdateFailed "Invalid hvac_mode:  %s")) ;;
    try_except
      (set_device_value self property_to_update temperature)
      (fun _ => raise (UpdateFailed "set_temperature update failed")).

(** ** Sample devices *)

(** A unit with the given power flag, mode code and actual operating code,
    setpoints 74/68/71 and fan on automatic. *)
Definition sample_data (p : option bool) (m rm : Z) : DeviceData :=
  {| power := p; mode := m; real_mode := rm; speed_state := 0;
     work_temp := PFloat (72 # 1);
     setpoint_air_cool := PFloat (74 # 1);
     setpoint_air_heat := PFloat (68 # 1);
     setpoint_air_auto := PFloat (71 # 1) |}.

(** A vendor that accepts every call, and one that fails every call. *)
Definition accepting (d : DeviceData) : DaikinDevice :=
  {| device_data := d; raises := fun _ _ => None |}.

Definition failing (d : DeviceData) : DaikinDevice :=
  {| device_data := d;
     raises := fun _ _ => Some (OtherException "ClientError") |}.

(** ** Dict updates *)

Module PyDictMut.
Section Mut.
Context {K V : Type}.
Variable K_eq_dec : forall a b : K, {a = b} + {a <> b}.

(** [d[k] = v]: an existing key keeps its place and takes the new value, a
    new key goes last. *)
Fixpoint setitem (d : PyDict.dict (K := K) (V := V)) (k : K) (v : V)
  : PyDict.dict (K := K) (V := V) :=
  match d with
  | [] => [(k, v)]
  | (k', v') :: d' =>
      if K_eq_dec k' k then (k', v) :: d' else (k', v') :: setitem d' k v
  end.

(** [d.pop(k)], without a default: the value and the dict that remains;
    [KeyError] on an absent key. *)
Fixpoint pop (d : PyDict.dict (K := K) (V := V)) (k : K)
  : result (V * PyDict.dict (K := K) (V := V)) :=
  match d with
  | [] => Raise KeyError
  | (k', v') :: d' =>
      if K_eq_dec k' k then Ok (v', d')
      else match pop d' k with
           | Ok (v, d'') => Ok (v, (k', v') :: d'')
           | Raise e => Raise e
           end
  end.

End Mut.
End PyDictMut.

(** ** The climate entity and the platform set-up *)

(** What [DaikinNADevice.__init__] stores, as far as the code reads it
    again: the vendor device, the two away temperatures, the away flag and
    the list of modes the entity offers the host. *)
Record DaikinNADevice : Type := {
  _device : DaikinDevice;
  _cool_away_temp : option Z;
  _heat_away_temp : option Z;
  _away : bool;
  _attr_hvac_modes : list HVACMode
}.

(** [list(DKN_MODE_TO_HVAC_MODE.values())] with [HVACMode.OFF] appended. *)
Definition DaikinNADevice_init (device : DaikinDevice)
  (cool_away_temp heat_away_temp : option Z) : DaikinNADevice :=
  {| _device := device;
     _cool_away_temp := cool_away_temp;
     _heat_away_temp := heat_away_temp;
     _away := false;
     _attr_hvac_modes := PyDict.values DKN_MODE_TO_HVAC_MODE ++ [OFF] |}.

(** The vendor's [DaikinCloud] client after [login]: its device list. *)
Record DaikinCloud : Type := {
  devices : list DaikinDevice
}.

(** [DaikinData] of [__init__.py]. *)
Record DaikinData : Type := {
  entry_id : string;
  client : DaikinCloud
}.

(** The host's [ConfigEntry], as far as the adapter reads it. *)
Record ConfigEntry : Type := {
  ce_entry_id : string;
  ce_data : PyDict.dict (K := string) (V := string)
}.

(** Modelled from the spec: the host's configuration keys for the account
    email and password ([CONF_EMAIL], [CONF_PASSWORD] of
    [homeassistant.const]). *)
Definition CONF_EMAIL : string := "email".
Definition CONF_PASSWORD : string := "password".

(** The slot [hass.data[DOMAIN]]: [None] while the key [DOMAIN] is absent,
    otherwise the dict from entry ids to [DaikinData]. The other keys of
    [hass.data] are never touched. *)
Definition HassData : Type :=
  option (PyDict.dict (K := string) (V := DaikinData)).

(** [hass.data.setdefault(DOMAIN, {})]. *)
Definition setdefault_domain (hass : HassData) : HassData :=
  match hass with
  | Some bucket => Some bucket
  | None => Some []
  end.

(** [hass.data[DOMAIN][entry_id]]. *)
Definition hass_entry (hass : HassData) (id : string) : result DaikinData :=
  match hass with
  | None => Raise KeyError
  | Some bucket => PyDict.getitem string_dec bucket id
  end.

(** What the adapter awaits from outside: the vendor's [login], which
    yields the logged-in client or raises, and the host's
    [async_forward_entry_setups] and [async_unload_platforms]. *)
Record Outside : Type := {
  login : string -> string -> result DaikinCloud;
  async_forward_entry_setups : ConfigEntry -> option exn;
  async_unload_platforms : ConfigEntry -> result bool
}.

Module Init.

(** [async_setup_entry] of [__init__.py]: the new [hass.data] slot and the
    outcome. What was written before an exception stays written. *)
Definition async_setup_entry (out : Outside) (hass : HassData)
  (config_entry : ConfigEntry) : HassData * result bool :=
  let hass := setdefault_domain hass in
  match PyDict.getitem string_dec (ce_data config_entry) CONF_EMAIL with
  | Raise e => (hass, Raise e)
  | Ok email =>
      match PyDict.getitem string_dec (ce_data config_entry) CONF_PASSWORD with
      | Raise e => (hass, Raise e)
      | Ok password =>
          match login out email password with
          | Raise e => (hass, Raise e)
          | Ok client =>
              let data :=
                {| entry_id := ce_entry_id config_entry; client := client |} in
              let hass := setdefault_domain hass in
              match hass with
              | None => (hass, Raise KeyError)
              | Some bucket =>
                  let hass :=
                    Some (PyDictMut.setitem string_dec bucket
                            (ce_entry_id config_entry) data) in
                  match async_forward_entry_setups out config_entry with
                  | Some e => (hass, Raise e)
                  | None => (hass, Ok true)
                  end
              end
          end
      end
  end.

(** [async_unload_entry] of [__init__.py]. *)
Definition async_unload_entry (out : Outside) (hass : HassData)
  (entry : ConfigEntry) : HassData * result bool :=
  match async_unload_platforms out entry with
  | Raise e => (hass, Raise e)
  | Ok unload_ok =>
      if unload_ok
      then match hass with
           | None => (hass, Raise KeyError)
           | Some bucket =>
               match PyDictMut.pop string_dec bucket (ce_entry_id entry) with
               | Raise e => (hass, Raise e)
               | Ok (_, bucket') => (Some bucket', Ok unload_ok)
               end
           end
      else (hass, Ok unload_ok)
  end.

End Init.

Module Climate.

(** [async_setup_entry] of [climate.py]: the entities handed to
    [async_add_entities], one per device of the stored client. *)
Definition async_setup_entry (hass : HassData) (entry : ConfigEntry)
  : result (list DaikinNADevice) :=
  let cool_away_temp := 80 in
  let heat_away_temp := 50 in
  match hass_entry hass (ce_entry_id entry) with
  | Raise e => Raise e
  | Ok data =>
      Ok (map (fun device =>
                 DaikinNADevice_init device (Some cool_away_temp)
                   (Some heat_away_temp))
              (devices (client data)))
  end.

End Climate.

(** ** Sample set-up *)

Definition sample_entry : ConfigEntry :=
  {| ce_entry_id := "entry-1";
     ce_data := [(CONF_EMAIL, "a@b.c"); (CONF_PASSWORD, "secret")] |}.

Definition sample_client : DaikinCloud :=
  {| devices := [accepting (sample_data (Some true) 2 2);
                 accepting (sample_data (Some false) 3 3)] |}.

(** An outside world where the login succeeds, the platforms are set up and
    unloading answers [unload_ok]. *)
Definition sample_outside (unload_ok : bool) : Outside :=
  {| login := fun _ _ => Ok sample_client;
     async_forward_entry_setups := fun _ => None;
     async_unload_platforms := fun _ => Ok unload_ok |}.

(** * Facts about dicts and reverse lookups *)

Section DictFacts.
Context {K V : Type}.
Variable K_eq_dec : forall a b : K, {a = b} + {a <> b}.
Variable V_eq_dec : forall a b : V, {a = b} + {a <> b}.
Implicit Types (d : PyDict.dict (K := K) (V := V)) (k : K) (v : V).

Lemma get_In d k v :
  PyDict.get K_eq_dec d k = Some v -> In (k, v) d.
Proof.
  induction d as [|[k' v'] d IH]; simpl; [discriminate|].
  destruct (K_eq_dec k' k) as [->|_].
  - intros [= ->]. now left.
  - intros H. right. now apply IH.
Qed.

Lemma get_absent d k :
  ~ In k (PyDict.keys d) -> PyDict.get K_eq_dec d k = None.
Proof.
  induction d as [|[k' v'] d IH]; simpl; [reflexivity|].
  intros H. destruct (K_eq_dec k' k) as [->|_].
  - exfalso. apply H. now left.
  - apply IH. intros Hin. apply H. now right.
Qed.

Lemma getitem_absent d k :
  ~ In k (PyDict.keys d) -> PyDict.getitem K_eq_dec d k = Raise KeyError.
Proof.
  intros H. unfold PyDict.getitem. now rewrite get_absent.
Qed.

Lemma index_absent (l : list V) v :
  ~ In v l -> PyDict.index V_eq_dec l v = Raise ValueError.
Proof.
  induction l as [|y l IH]; simpl; [reflexivity|].
  intros H. destruct (V_eq_dec y v) as [->|_].
  - exfalso. apply H. now left.
  - rewrite IH; [reflexivity|]. intros Hin. apply H. now right.
Qed.

(** A value that occurs is found at its first position. *)
Lemma index_present (l : list V) v :
  In v l ->
  exists i, PyDict.index V_eq_dec l v = Ok i /\ nth_error l i = Some v.
Proof.
  induction l as [|y l IH]; simpl; [intros []|].
  intros H. destruct (V_eq_dec y v) as [->|Hne].
  - now exists O.
  - destruct H as [H|H]; [contradiction|].
    destruct (IH H) as (i & -> & Hi). now exists (S i).
Qed.

(** With pairwise distinct values, the item holding [v] decides the
    reverse lookup. *)
Lemma reverse_lookup_In d k v :
  NoDup (PyDict.values d) -> In (k, v) d ->
  PyDict.reverse_lookup V_eq_dec d v = Ok k.
Proof.
  unfold PyDict.reverse_lookup, PyDict.subscript, PyDict.values, PyDict.keys.
  induction d as [|[k' v'] d IH]; simpl; [intros _ []|].
  intros Hnd Hin. inversion Hnd as [|? ? Hfresh Hnd']; subst.
  destruct (V_eq_dec v' v) as [->|Hne].
  - destruct Hin as [[= ->]|Hin]; [reflexivity|].
    exfalso. apply Hfresh. now apply (in_map snd) in Hin.
  - destruct Hin as [[= _ Heq]|Hin]; [contradiction|].
    specialize (IH Hnd' Hin).
    destruct (PyDict.index V_eq_dec (map snd d) v) as [i|e];
      [exact IH|discriminate].
Qed.

Lemma reverse_lookup_getitem d k v :
  NoDup (PyDict.values d) -> PyDict.getitem K_eq_dec d k = Ok v ->
  PyDict.reverse_lookup V_eq_dec d v = Ok k.
Proof.
  unfold PyDict.getitem. intros Hnd H.
  destruct (PyDict.get K_eq_dec d k) as [v0|] eqn:Hget; [|discriminate].
  injection H as ->. apply reverse_lookup_In; [exact Hnd|].
  now apply get_In.
Qed.

Lemma reverse_lookup_absent d v :
  ~ In v (PyDict.values d) ->
  PyDict.reverse_lookup V_eq_dec d v = Raise ValueError.
Proof.
  unfold PyDict.reverse_lookup. intros H. now rewrite index_absent.
Qed.

(** A reverse lookup that succeeds returns a key of the dict. *)
Lemma reverse_lookup_key d k v :
  PyDict.reverse_lookup V_eq_dec d v = Ok k -> In (k, v) d.
Proof.
  unfold PyDict.reverse_lookup, PyDict.subscript, PyDict.values, PyDict.keys.
  revert k. induction d as [|[k' v'] d IH]; simpl; [discriminate|].
  intros k. destruct (V_eq_dec v' v) as [->|Hne].
  - simpl. intros [= ->]. now left.
  - destruct (PyDict.index V_eq_dec (map snd d) v) as [i|e];
      [|discriminate].
    simpl. intros H. right. now apply IH.
Qed.
End DictFacts.

(** * The tables *)

Lemma hvac_table_keys : PyDict.keys DKN_MODE_TO_HVAC_MODE = [5; 4; 3; 2; 1].
Proof. reflexivity. Qed.

Lemma hvac_table_values :
  PyDict.values DKN_MODE_TO_HVAC_MODE = [DRY; FAN_ONLY; HEAT; COOL; HEAT_COOL].
Proof. reflexivity. Qed.

Lemma fan_table_keys : PyDict.keys DKN_MODE_TO_FAN_MODE = [0; 2; 4; 6].
Proof. reflexivity. Qed.

Ltac nodup_by_cases :=
  repeat (constructor; [simpl; intuition discriminate|]); constructor.

Lemma hvac_table_injective : NoDup (PyDict.values DKN_MODE_TO_HVAC_MODE).
Proof. rewrite hvac_table_values. nodup_by_cases. Qed.

Lemma fan_table_injective : NoDup (PyDict.values DKN_MODE_TO_FAN_MODE).
Proof. unfold DKN_MODE_TO_FAN_MODE. simpl. nodup_by_cases. Qed.

(** C1: every vendor mode code of the table (1 to 5) is mapped by the
    forward table to a host mode that [_hvac_mode_to_dkn_mode] maps back to
    the same code. *)
Theorem hvac_code_roundtrip (code : Z) :
  In code [1; 2; 3; 4; 5] ->
  exists m : HVACMode,
    PyDict.getitem Z.eq_dec DKN_MODE_TO_HVAC_MODE code = Ok m /\
    _hvac_mode_to_dkn_mode m = Ok code.
Proof.
  intros Hin.
  assert (exists m, PyDict.getitem Z.eq_dec DKN_MODE_TO_HVAC_MODE code = Ok m)
    as [m Hm].
  { simpl in Hin.
    repeat (destruct Hin as [<-|Hin]; [eexists; reflexivity|]).
    contradiction. }
  exists m. split; [exact Hm|].
  exact (reverse_lookup_getitem Z.eq_dec HVACMode_eq_dec _ _ _
           hvac_table_injective Hm).
Qed.

Lemma hvac_code_roundtrip_witness :
  In 3 [1; 2; 3; 4; 5] /\
  exists m : HVACMode,
    PyDict.getitem Z.eq_dec DKN_MODE_TO_HVAC_MODE 3 = Ok m /\
    _hvac_mode_to_dkn_mode m = Ok 3.
Proof.
  split; [simpl; tauto|]. apply (hvac_code_roundtrip 3). simpl; tauto.
Defined.

(** C7: [_hvac_mode_to_dkn_mode] raises, and returns no code, for every
    host mode that is not a value of the 5-entry table, and [OFF] is such a
    mode. *)
Theorem hvac_reverse_lookup_fails :
  (forall m : HVACMode,
      ~ In m (PyDict.values DKN_MODE_TO_HVAC_MODE) ->
      _hvac_mode_to_dkn_mode m = Raise ValueError) /\
  ~ In OFF (PyDict.values DKN_MODE_TO_HVAC_MODE) /\
  _hvac_mode_to_dkn_mode OFF = Raise ValueError.
Proof.
  assert (forall m : HVACMode,
             ~ In m (PyDict.values DKN_MODE_TO_HVAC_MODE) ->
             _hvac_mode_to_dkn_mode m = Raise ValueError) as Hall.
  { intros m H. unfold _hvac_mode_to_dkn_mode.
    now apply reverse_lookup_absent. }
  assert (~ In OFF (PyDict.values DKN_MODE_TO_HVAC_MODE)) as Hoff.
  { rewrite hvac_table_values. simpl. intuition discriminate. }
  split; [exact Hall|]. split; [exact Hoff|]. now apply Hall.
Qed.

(** [AUTO], the other host mode outside the table, fails the same way. *)
Lemma hvac_reverse_lookup_fails_witness :
  ~ In AUTO (PyDict.values DKN_MODE_TO_HVAC_MODE) /\
  _hvac_mode_to_dkn_mode AUTO = Raise ValueError.
Proof.
  assert (~ In AUTO (PyDict.values DKN_MODE_TO_HVAC_MODE)) as H.
  { simpl. intuition discriminate. }
  split; [exact H|]. exact (proj1 hvac_reverse_lookup_fails AUTO H).
Defined.

(** C8: every vendor fan-speed code of the table (0, 2, 4, 6) is mapped by
    the forward table to a host fan mode that [_fan_mode_to_dkn_mode] maps
    back to the same code. *)
Theorem fan_code_roundtrip (code : Z) :
  In code [0; 2; 4; 6] ->
  exists f : string,
    PyDict.getitem Z.eq_dec DKN_MODE_TO_FAN_MODE code = Ok f /\
    _fan_mode_to_dkn_mode f = Ok code.
Proof.
  intros Hin.
  assert (exists f, PyDict.getitem Z.eq_dec DKN_MODE_TO_FAN_MODE code = Ok f)
    as [f Hf].
  { simpl in Hin.
    repeat (destruct Hin as [<-|Hin]; [eexists; reflexivity|]).
    contradiction. }
  exists f. split; [exact Hf|].
  exact (reverse_lookup_getitem Z.eq_dec string_dec _ _ _
           fan_table_injective Hf).
Qed.

Lemma fan_code_roundtrip_witness :
  In 4 [0; 2; 4; 6] /\
  exists f : string,
    PyDict.getitem Z.eq_dec DKN_MODE_TO_FAN_MODE 4 = Ok f /\
    _fan_mode_to_dkn_mode f = Ok 4.
Proof.
  split; [simpl; tauto|]. apply (fan_code_roundtrip 4). simpl; tauto.
Defined.

(** * Derived state *)

(** C5: with the power field false, [hvac_mode] is [OFF] whatever the
    stored mode code; with the power field true it is the forward-table
    lookup of the mode code (a [KeyError] for a code outside the table). *)
Theorem hvac_mode_by_power (self : DaikinDevice) :
  (power (device_data self) = Some false -> hvac_mode self = Ok OFF) /\
  (power (device_data self) = Some true ->
   hvac_mode self =
     PyDict.getitem Z.eq_dec DKN_MODE_TO_HVAC_MODE (mode (device_data self))).
Proof.
  unfold hvac_mode. split; intros ->; reflexivity.
Qed.

Lemma hvac_mode_by_power_witness :
  hvac_mode (accepting (sample_data (Some false) 9 9)) = Ok OFF /\
  hvac_mode (accepting (sample_data (Some true) 3 2)) = Ok HEAT.
Proof.
  split.
  - apply (proj1 (hvac_mode_by_power (accepting (sample_data (Some false) 9 9)))).
    reflexivity.
  - apply (proj2 (hvac_mode_by_power (accepting (sample_data (Some true) 3 2)))).
    reflexivity.
Defined.

(** [hvac_mode] never yields a mode outside the table other than [OFF]. *)
Lemma hvac_mode_range (self : DaikinDevice) (m : HVACMode) :
  hvac_mode self = Ok m ->
  m = OFF \/ In m (PyDict.values DKN_MODE_TO_HVAC_MODE).
Proof.
  unfold hvac_mode, PyDict.getitem.
  destruct (is_False (power (device_data self))).
  - intros [= <-]. now left.
  - destruct (PyDict.get Z.eq_dec DKN_MODE_TO_HVAC_MODE
                (mode (device_data self))) as [m'|] eqn:Hget; [|discriminate].
    intros [= <-]. right.
    apply get_In in Hget. now apply (in_map snd) in Hget.
Qed.

(** C4: [target_temperature] returns the cool setpoint when the derived
    mode is [COOL], the heat setpoint when it is [HEAT], the auto setpoint
    when it is [HEAT_COOL], and [None] when it is [FAN_ONLY], [DRY] or
    [OFF]. *)
Theorem target_temperature_by_mode (self : DaikinDevice) :
  (hvac_mode self = Ok COOL ->
   target_temperature self = Ok (setpoint_air_cool (device_data self))) /\
  (hvac_mode self = Ok HEAT ->
   target_temperature self = Ok (setpoint_air_heat (device_data self))) /\
  (hvac_mode self = Ok HEAT_COOL ->
   target_temperature self = Ok (setpoint_air_auto (device_data self))) /\
  (hvac_mode self = Ok FAN_ONLY \/ hvac_mode self = Ok DRY \/
   hvac_mode self = Ok OFF ->
   target_temperature self = Ok PNone).
Proof.
  unfold target_temperature.
  repeat split; [intros -> ..|intros [-> |[-> | ->]]]; reflexivity.
Qed.

Lemma target_temperature_by_mode_witness :
  target_temperature (accepting (sample_data (Some true) 2 2))
    = Ok (PFloat (74 # 1)) /\
  target_temperature (accepting (sample_data (Some true) 3 3))
    = Ok (PFloat (68 # 1)) /\
  target_temperature (accepting (sample_data (Some true) 1 2))
    = Ok (PFloat (71 # 1)) /\
  target_temperature (accepting (sample_data (Some true) 4 4)) = Ok PNone /\
  target_temperature (accepting (sample_data (Some true) 5 5)) = Ok PNone /\
  target_temperature (accepting (sample_data (Some false) 2 2)) = Ok PNone.
Proof.
  split; [|split; [|split; [|split; [|split]]]].
  - apply (target_temperature_by_mode (accepting (sample_data (Some true) 2 2))).
    reflexivity.
  - apply (target_temperature_by_mode (accepting (sample_data (Some true) 3 3))).
    reflexivity.
  - apply (target_temperature_by_mode (accepting (sample_data (Some true) 1 2))).
    reflexivity.
  - apply (target_temperature_by_mode (accepting (sample_data (Some true) 4 4))).
    left. reflexivity.
  - apply (target_temperature_by_mode (accepting (sample_data (Some true) 5 5))).
    right. left. reflexivity.
  - apply (target_temperature_by_mode (accepting (sample_data (Some false) 2 2))).
    right. right. reflexivity.
Defined.

(** * Command sequencing of [async_set_hvac_mode] *)

(** Turning off: the calls issued, by the current power state and the
    vendor's answer to the power call. *)
Lemma async_set_hvac_mode_off (self : DaikinDevice) :
  async_set_hvac_mode self OFF =
    if is_True (power (device_data self))
    then match raises self "power" (PBool false) with
         | Some e => ([SetDeviceValue "power" (PBool false)], Raise e)
         | None => ([SetDeviceValue "power" (PBool false);
                     ScheduleUpdateHaState], Ok tt)
         end
    else ([], Ok tt).
Proof.
  unfold async_set_hvac_mode, set_device_value. simpl.
  destruct (is_True (power (device_data self))); simpl; [|reflexivity].
  destruct (raises self "power" (PBool false)); reflexivity.
Qed.

(** Turning on a unit that is not on: the calls issued for a target mode
    with vendor code [code]. *)
Lemma async_set_hvac_mode_on (self : DaikinDevice) (target : HVACMode)
  (code : Z) :
  target <> OFF ->
  is_True (power (device_data self)) = false ->
  _hvac_mode_to_dkn_mode target = Ok code ->
  async_set_hvac_mode self target =
    match raises self "mode" (PInt code) with
    | Some e => ([SetDeviceValue "mode" (PInt code)], Raise e)
    | None =>
        match raises self "power" (PBool true) with
        | Some e => ([SetDeviceValue "mode" (PInt code);
                      SetDeviceValue "power" (PBool true)], Raise e)
        | None => ([SetDeviceValue "mode" (PInt code);
                    SetDeviceValue "power" (PBool true);
                    ScheduleUpdateHaState], Ok tt)
        end
    end.
Proof.
  intros Hoff Hpow Hcode. unfold async_set_hvac_mode, set_device_value.
  rewrite Hpow, Hcode. unfold HVACMode_eqb.
  destruct (HVACMode_eq_dec target OFF) as [E|_]; [contradiction|]. simpl.
  destruct (raises self "mode" (PInt code)); [reflexivity|].
  destruct (raises self "power" (PBool true)); reflexivity.
Qed.

(** C2, as amended: for a target mode of the 5-entry table, with the power
    field false and the vendor accepting the mode call, exactly two vendor
    set calls are issued: the mode code first, then power on. A non-OFF
    mode outside the table makes the reverse lookup raise before any
    call. *)
Theorem set_hvac_mode_on_from_off (self : DaikinDevice) (target : HVACMode) :
  power (device_data self) = Some false ->
  In target (PyDict.values DKN_MODE_TO_HVAC_MODE) ->
  exists code : Z,
    _hvac_mode_to_dkn_mode target = Ok code /\
    (raises self "mode" (PInt code) = None ->
     vendor_calls (fst (async_set_hvac_mode self target)) =
       [SetDeviceValue "mode" (PInt code);
        SetDeviceValue "power" (PBool true)]).
Proof.
  intros Hpow Hin.
  assert (target <> OFF) as Hoff.
  { intros ->. revert Hin. rewrite hvac_table_values. simpl.
    intuition discriminate. }
  assert (exists code, _hvac_mode_to_dkn_mode target = Ok code) as [code Hc].
  { rewrite hvac_table_values in Hin. simpl in Hin.
    repeat (destruct Hin as [<-|Hin]; [eexists; reflexivity|]).
    contradiction. }
  exists code. split; [exact Hc|]. intros Hok.
  rewrite (async_set_hvac_mode_on self target code Hoff); [|now rewrite Hpow|exact Hc].
  rewrite Hok. destruct (raises self "power" (PBool true)); reflexivity.
Qed.

Lemma set_hvac_mode_on_from_off_witness :
  power (device_data (accepting (sample_data (Some false) 2 2))) = Some false /\
  In HEAT (PyDict.values DKN_MODE_TO_HVAC_MODE) /\
  vendor_calls
    (fst (async_set_hvac_mode (accepting (sample_data (Some false) 2 2))
            HEAT)) =
    [SetDeviceValue "mode" (PInt 3); SetDeviceValue "power" (PBool true)].
Proof.
  assert (In HEAT (PyDict.values DKN_MODE_TO_HVAC_MODE)) as Hin
    by (simpl; tauto).
  split; [reflexivity|]. split; [exact Hin|].
  destruct (set_hvac_mode_on_from_off
              (accepting (sample_data (Some false) 2 2)) HEAT
              eq_refl Hin) as (code & Hcode & Hcalls).
  injection Hcode as <-. apply Hcalls. reflexivity.
Defined.

(** C2 as stated fails: [AUTO] is a non-OFF target mode, and with the power
    field false the call issues no vendor set call at all; the reverse
    lookup raises [ValueError] first. *)
Lemma set_hvac_mode_auto_issues_nothing :
  AUTO <> OFF /\
  power (device_data (accepting (sample_data (Some false) 2 2))) = Some false /\
  async_set_hvac_mode (accepting (sample_data (Some false) 2 2)) AUTO =
    ([], Raise ValueError).
Proof.
  split; [discriminate|]. split; reflexivity.
Qed.

(** C3: with target [OFF], no mode-code command is ever issued, and every
    vendor command issued is the power-off update. *)
Theorem set_hvac_mode_off_only_power (self : DaikinDevice) :
  (forall value : pyval,
      ~ In (SetDeviceValue "mode" value)
           (fst (async_set_hvac_mode self OFF))) /\
  (forall (name : string) (value : pyval),
      In (SetDeviceValue name value) (fst (async_set_hvac_mode self OFF)) ->
      name = "power" /\ value = PBool false).
Proof.
  rewrite async_set_hvac_mode_off.
  destruct (is_True (power (device_data self)));
    [destruct (raises self "power" (PBool false))|]; simpl; split;
    intros; intuition (try discriminate; try congruence).
Qed.

Lemma set_hvac_mode_off_only_power_witness :
  In (SetDeviceValue "power" (PBool false))
     (fst (async_set_hvac_mode (accepting (sample_data (Some true) 2 2))
             OFF)) /\
  (forall value : pyval,
      ~ In (SetDeviceValue "mode" value)
           (fst (async_set_hvac_mode (accepting (sample_data (Some true) 2 2))
                   OFF))).
Proof.
  split; [simpl; tauto|].
  exact (proj1 (set_hvac_mode_off_only_power
                  (accepting (sample_data (Some true) 2 2)))).
Defined.

(** C9: with target [OFF] and the power field already false, nothing
    happens: no vendor set call, no scheduled state update, and the
    coroutine returns normally. *)
Theorem set_hvac_mode_off_when_off (self : DaikinDevice) :
  power (device_data self) = Some false ->
  async_set_hvac_mode self OFF = ([], Ok tt).
Proof.
  intros H. rewrite async_set_hvac_mode_off, H. reflexivity.
Qed.

Lemma set_hvac_mode_off_when_off_witness :
  async_set_hvac_mode (failing (sample_data (Some false) 3 3)) OFF =
    ([], Ok tt).
Proof.
  apply (set_hvac_mode_off_when_off (failing (sample_data (Some false) 3 3))).
  reflexivity.
Defined.

(** * Failures of [async_set_temperature] *)

(** Without a temperature nothing is looked up and nothing is issued. *)
Lemma async_set_temperature_missing (self : DaikinDevice)
  (kwargs : PyDict.dict) :
  kwargs_get kwargs ATTR_TEMPERATURE = PNone ->
  async_set_temperature self kwargs =
    ([], Raise (UpdateFailed "No target temperature specified")).
Proof.
  intros H. unfold async_set_temperature. rewrite H. reflexivity.
Qed.

(** With a temperature, the run is decided by the derived mode and by the
    vendor's answer to the one call issued. *)
Lemma async_set_temperature_present (self : DaikinDevice)
  (kwargs : PyDict.dict) (m : HVACMode) :
  is_None (kwargs_get kwargs ATTR_TEMPERATURE) = false ->
  hvac_mode self = Ok m ->
  async_set_temperature self kwargs =
    let issue property_to_update :=
      let call :=
        SetDeviceValue property_to_update
          (kwargs_get kwargs ATTR_TEMPERATURE) in
      match raises self property_to_update
              (kwargs_get kwargs ATTR_TEMPERATURE) with
      | Some _ => ([call], Raise (UpdateFailed "set_temperature update failed"))
      | None => ([call], Ok tt)
      end in
    match m with
    | COOL => issue "setpoint_air_cool"
    | HEAT => issue "setpoint_air_heat"
    | HEAT_COOL => issue "setpoint_air_auto"
    | _ => ([], Raise (UpdateFailed "Invalid hvac_mode:  %s"))
    end.
Proof.
  intros Ht Hm. unfold async_set_temperature, set_device_value.
  rewrite Ht, Hm.
  destruct m; simpl; try reflexivity;
    match goal with
    | |- context [raises ?s ?p ?t] => destruct (raises s p t); reflexivity
    end.
Qed.

(** C6: [async_set_temperature] raises [UpdateFailed], before any vendor
    call, when the temperature argument is missing or when the derived mode
    is none of [COOL], [HEAT], [HEAT_COOL]; and whenever the vendor set call
    it issues raises an exception, whichever it is, the coroutine ends in
    the same [UpdateFailed], which carries nothing of that exception. *)
Theorem set_temperature_failures (self : DaikinDevice)
  (kwargs : PyDict.dict) :
  (kwargs_get kwargs ATTR_TEMPERATURE = PNone ->
   exists msg : string,
     async_set_temperature self kwargs = ([], Raise (UpdateFailed msg))) /\
  (forall m : HVACMode,
      hvac_mode self = Ok m -> m <> COOL -> m <> HEAT -> m <> HEAT_COOL ->
      exists msg : string,
        async_set_temperature self kwargs = ([], Raise (UpdateFailed msg))) /\
  (forall (name : string) (value : pyval) (e : exn),
      In (SetDeviceValue name value)
         (fst (async_set_temperature self kwargs)) ->
      raises self name value = Some e ->
      async_set_temperature self kwargs =
        ([SetDeviceValue name value],
         Raise (UpdateFailed "set_temperature update failed"))).
Proof.
  split; [|split].
  - intros H. eexists. now apply async_set_temperature_missing.
  - intros m Hm Hc Hh Hhc.
    destruct (is_None (kwargs_get kwargs ATTR_TEMPERATURE)) eqn:Ht.
    + eexists. apply async_set_temperature_missing.
      destruct (kwargs_get kwargs ATTR_TEMPERATURE); (reflexivity || discriminate).
    + rewrite (async_set_temperature_present self kwargs m Ht Hm).
      destruct m; try contradiction; eexists; reflexivity.
  - intros name value e Hin He.
    destruct (is_None (kwargs_get kwargs ATTR_TEMPERATURE)) eqn:Ht.
    + rewrite async_set_temperature_missing in Hin; [destruct Hin|].
      destruct (kwargs_get kwargs ATTR_TEMPERATURE); (reflexivity || discriminate).
    + destruct (hvac_mode self) as [m|e'] eqn:Hm.
      * rewrite (async_set_temperature_present self kwargs m Ht Hm) in *.
        destruct m; simpl in *; try contradiction;
          match goal with
          | H : In _ (fst match raises ?s ?p ?t with _ => _ end) |- _ =>
              destruct (raises s p t) eqn:Hr; simpl in H;
              destruct H as [[= <- <-]|[]]; congruence
          end.
      * unfold async_set_temperature in Hin. rewrite Ht, Hm in Hin.
        destruct Hin.
Qed.

Lemma set_temperature_failures_witness :
  async_set_temperature (accepting (sample_data (Some true) 2 2)) [] =
    ([], Raise (UpdateFailed "No target temperature specified")) /\
  async_set_temperature (accepting (sample_data (Some true) 4 4))
    [(ATTR_TEMPERATURE, PInt 70)] =
    ([], Raise (UpdateFailed "Invalid hvac_mode:  %s")) /\
  async_set_temperature (failing (sample_data (Some true) 3 3))
    [(ATTR_TEMPERATURE, PInt 70)] =
    ([SetDeviceValue "setpoint_air_heat" (PInt 70)],
     Raise (UpdateFailed "set_temperature update failed")).
Proof.
  split; [reflexivity|]. split; [reflexivity|].
  apply (proj2 (proj2 (set_temperature_failures
                         (failing (sample_data (Some true) 3 3))
                         [(ATTR_TEMPERATURE, PInt 70)]))
           "setpoint_air_heat" (PInt 70) (OtherException "ClientError")).
  - simpl. left. reflexivity.
  - reflexivity.
Defined.

(** * The getters on an unknown code *)

(** C10, as amended: with the power field true and both the mode code and
    the actual operating code ([real_mode], the field [hvac_action] reads)
    outside the table, [hvac_action] returns [None] while [hvac_mode]
    raises [KeyError]. *)
Theorem getters_on_unknown_code (self : DaikinDevice) :
  power (device_data self) = Some true ->
  ~ In (mode (device_data self)) (PyDict.keys DKN_MODE_TO_HVAC_MODE) ->
  ~ In (real_mode (device_data self)) (PyDict.keys DKN_MODE_TO_HVAC_MODE) ->
  hvac_action self = None /\ hvac_mode self = Raise KeyError.
Proof.
  intros Hpow Hmode Hreal. unfold hvac_action, hvac_mode. rewrite Hpow.
  cbn [is_False].
  split; [now apply get_absent|now apply getitem_absent].
Qed.

Lemma getters_on_unknown_code_witness :
  hvac_action (accepting (sample_data (Some true) 9 9)) = None /\
  hvac_mode (accepting (sample_data (Some true) 9 9)) = Raise KeyError.
Proof.
  apply (getters_on_unknown_code (accepting (sample_data (Some true) 9 9)));
    [reflexivity|simpl; intuition discriminate..].
Defined.

(** C10 as stated fails: [hvac_action] looks up [real_mode], not [mode].
    With the power field true, mode code 9 (outside the table) and actual
    operating code 2, [hvac_action] returns [COOL], not [None]. *)
Lemma hvac_action_reads_real_mode :
  power (device_data (accepting (sample_data (Some true) 9 2))) = Some true /\
  PyDict.get Z.eq_dec DKN_MODE_TO_HVAC_MODE
    (mode (device_data (accepting (sample_data (Some true) 9 2)))) = None /\
  hvac_action (accepting (sample_data (Some true) 9 2)) = Some COOL /\
  hvac_mode (accepting (sample_data (Some true) 9 2)) = Raise KeyError.
Proof.
  repeat split.
Qed.

(** * Beyond the claims: the tables read backwards *)

Section DictKeyFacts.
Context {K V : Type}.
Variable K_eq_dec : forall a b : K, {a = b} + {a <> b}.
Implicit Types (d : PyDict.dict (K := K) (V := V)) (k : K) (v : V).

(** With pairwise distinct keys, every item is the one its key finds. *)
Lemma In_get d k v :
  NoDup (PyDict.keys d) -> In (k, v) d -> PyDict.get K_eq_dec d k = Some v.
Proof.
  unfold PyDict.keys.
  induction d as [|[k' v'] d IH]; simpl; [intros _ []|].
  intros Hnd Hin. inversion Hnd as [|? ? Hfresh Hnd']; subst.
  destruct (K_eq_dec k' k) as [->|Hne].
  - destruct Hin as [[= ->]|Hin]; [reflexivity|].
    exfalso. apply Hfresh. now apply (in_map fst) in Hin.
  - destruct Hin as [[= Heq _]|Hin]; [contradiction|]. now apply IH.
Qed.

Lemma get_values d k v :
  PyDict.get K_eq_dec d k = Some v -> In v (PyDict.values d).
Proof.
  intros H. apply get_In in H. now apply (in_map snd) in H.
Qed.

Lemma get_present d k :
  In k (PyDict.keys d) -> exists v, PyDict.get K_eq_dec d k = Some v.
Proof.
  unfold PyDict.keys.
  induction d as [|[k' v'] d IH]; simpl; [intros []|].
  intros H. destruct (K_eq_dec k' k) as [->|Hne]; [now eexists|].
  destruct H as [H|H]; [contradiction|]. now apply IH.
Qed.
End DictKeyFacts.

Lemma hvac_table_keys_distinct : NoDup (PyDict.keys DKN_MODE_TO_HVAC_MODE).
Proof. rewrite hvac_table_keys. nodup_by_cases. Qed.

Lemma fan_table_keys_distinct : NoDup (PyDict.keys DKN_MODE_TO_FAN_MODE).
Proof. rewrite fan_table_keys. nodup_by_cases. Qed.

(** The reverse lookups succeed exactly on the values of their table. *)
Lemma hvac_reverse_lookup_total (m : HVACMode) :
  In m (PyDict.values DKN_MODE_TO_HVAC_MODE) ->
  exists code, _hvac_mode_to_dkn_mode m = Ok code.
Proof.
  rewrite hvac_table_values. simpl. intros Hin.
  repeat (destruct Hin as [<-|Hin]; [eexists; reflexivity|]). contradiction.
Qed.

Lemma fan_reverse_lookup_total (f : string) :
  In f fan_modes -> exists code, _fan_mode_to_dkn_mode f = Ok code.
Proof.
  unfold fan_modes, DKN_MODE_TO_FAN_MODE. simpl. intros Hin.
  repeat (destruct Hin as [<-|Hin]; [eexists; reflexivity|]). contradiction.
Qed.

(** X1: whenever [_hvac_mode_to_dkn_mode] returns a code for a host mode,
    the forward table maps that code back to the same mode. *)
Theorem hvac_mode_roundtrip (m : HVACMode) (code : Z) :
  _hvac_mode_to_dkn_mode m = Ok code ->
  PyDict.getitem Z.eq_dec DKN_MODE_TO_HVAC_MODE code = Ok m.
Proof.
  intros H. apply reverse_lookup_key in H.
  unfold PyDict.getitem.
  now rewrite (In_get Z.eq_dec _ _ _ hvac_table_keys_distinct H).
Qed.

Lemma hvac_mode_roundtrip_witness :
  _hvac_mode_to_dkn_mode FAN_ONLY = Ok 4 /\
  PyDict.getitem Z.eq_dec DKN_MODE_TO_HVAC_MODE 4 = Ok FAN_ONLY.
Proof.
  split; [reflexivity|]. apply (hvac_mode_roundtrip FAN_ONLY 4). reflexivity.
Defined.

(** X2: whenever [_fan_mode_to_dkn_mode] returns a code for a fan mode, the
    forward table maps that code back to the same fan mode. *)
Theorem fan_mode_roundtrip (f : string) (code : Z) :
  _fan_mode_to_dkn_mode f = Ok code ->
  PyDict.getitem Z.eq_dec DKN_MODE_TO_FAN_MODE code = Ok f.
Proof.
  intros H. apply reverse_lookup_key in H.
  unfold PyDict.getitem.
  now rewrite (In_get Z.eq_dec _ _ _ fan_table_keys_distinct H).
Qed.

Lemma fan_mode_roundtrip_witness :
  _fan_mode_to_dkn_mode FAN_MEDIUM = Ok 4 /\
  PyDict.getitem Z.eq_dec DKN_MODE_TO_FAN_MODE 4 = Ok FAN_MEDIUM.
Proof.
  split; [reflexivity|]. apply (fan_mode_roundtrip FAN_MEDIUM 4). reflexivity.
Defined.

(** * Beyond the claims: the modes the entity offers *)

Lemma advertised_modes (device : DaikinDevice) (c h : option Z) (m : HVACMode) :
  In m (_attr_hvac_modes (DaikinNADevice_init device c h)) <->
  m = OFF \/ In m (PyDict.values DKN_MODE_TO_HVAC_MODE).
Proof.
  simpl. intuition (subst; auto 10).
Qed.

(** Turning on or changing mode: the run for a target mode with vendor code
    [code], by the current power state and the vendor's answers. *)
Lemma async_set_hvac_mode_target (device : DaikinDevice) (m : HVACMode)
  (code : Z) :
  m <> OFF ->
  _hvac_mode_to_dkn_mode m = Ok code ->
  async_set_hvac_mode device m =
    match raises device "mode" (PInt code) with
    | Some e => ([SetDeviceValue "mode" (PInt code)], Raise e)
    | None =>
        if is_True (power (device_data device))
        then ([SetDeviceValue "mode" (PInt code)], Ok tt)
        else
          match raises device "power" (PBool true) with
          | Some e => ([SetDeviceValue "mode" (PInt code);
                        SetDeviceValue "power" (PBool true)], Raise e)
          | None => ([SetDeviceValue "mode" (PInt code);
                      SetDeviceValue "power" (PBool true);
                      ScheduleUpdateHaState], Ok tt)
          end
    end.
Proof.
  intros Hoff Hcode. unfold async_set_hvac_mode, set_device_value.
  rewrite Hcode. unfold HVACMode_eqb.
  destruct (HVACMode_eq_dec m OFF) as [E|_]; [contradiction|]. simpl.
  destruct (raises device "mode" (PInt code)); [reflexivity|].
  destruct (is_True (power (device_data device))); simpl; [reflexivity|].
  destruct (raises device "power" (PBool true)); reflexivity.
Qed.

Lemma offered_not_off (m : HVACMode) :
  In m (PyDict.values DKN_MODE_TO_HVAC_MODE) -> m <> OFF.
Proof.
  intros Hin ->. revert Hin. rewrite hvac_table_values. simpl.
  intuition discriminate.
Qed.

(** X3: every mode the [hvac_mode] getter returns is one of the modes the
    entity was constructed to offer ([_attr_hvac_modes]). *)
Theorem hvac_mode_is_offered (device : DaikinDevice) (c h : option Z)
  (m : HVACMode) :
  hvac_mode device = Ok m ->
  In m (_attr_hvac_modes (DaikinNADevice_init device c h)).
Proof.
  intros H. apply advertised_modes. exact (hvac_mode_range device m H).
Qed.

Lemma hvac_mode_is_offered_witness :
  In DRY (_attr_hvac_modes
            (DaikinNADevice_init (accepting (sample_data (Some true) 5 2))
               (Some 80) (Some 50))).
Proof.
  apply (hvac_mode_is_offered (accepting (sample_data (Some true) 5 2))
           (Some 80) (Some 50) DRY).
  reflexivity.
Defined.

(** X4: with a vendor that accepts every call, [async_set_hvac_mode]
    returns normally for every mode the entity offers, whatever the power
    state. *)
Theorem set_hvac_mode_offered_succeeds (device : DaikinDevice)
  (c h : option Z) (m : HVACMode) :
  (forall name value, raises device name value = None) ->
  In m (_attr_hvac_modes (DaikinNADevice_init device c h)) ->
  snd (async_set_hvac_mode device m) = Ok tt.
Proof.
  intros Hacc Hin. apply advertised_modes in Hin. destruct Hin as [->|Hin].
  - rewrite async_set_hvac_mode_off, Hacc.
    now destruct (is_True (power (device_data device))).
  - destruct (hvac_reverse_lookup_total m Hin) as [code Hcode].
    rewrite (async_set_hvac_mode_target device m code
               (offered_not_off m Hin) Hcode), !Hacc.
    now destruct (is_True (power (device_data device))).
Qed.

Lemma set_hvac_mode_offered_succeeds_witness :
  snd (async_set_hvac_mode (accepting (sample_data None 2 2)) DRY) = Ok tt.
Proof.
  apply (set_hvac_mode_offered_succeeds (accepting (sample_data None 2 2))
           None None DRY).
  - reflexivity.
  - simpl. tauto.
Defined.

(** X5: for a mode the entity does not offer, [async_set_hvac_mode] raises
    [ValueError] before any vendor call, whatever the power state and the
    vendor. *)
Theorem set_hvac_mode_not_offered_fails (device : DaikinDevice)
  (c h : option Z) (m : HVACMode) :
  ~ In m (_attr_hvac_modes (DaikinNADevice_init device c h)) ->
  async_set_hvac_mode device m = ([], Raise ValueError).
Proof.
  intros Hnot.
  assert (m <> OFF /\ ~ In m (PyDict.values DKN_MODE_TO_HVAC_MODE))
    as [Hoff Hval].
  { split; intros H; apply Hnot; apply advertised_modes; auto. }
  unfold async_set_hvac_mode, HVACMode_eqb.
  destruct (HVACMode_eq_dec m OFF) as [E|_]; [contradiction|].
  unfold _hvac_mode_to_dkn_mode.
  rewrite (reverse_lookup_absent HVACMode_eq_dec _ _ Hval). reflexivity.
Qed.

Lemma set_hvac_mode_not_offered_fails_witness :
  async_set_hvac_mode (accepting (sample_data (Some true) 2 2)) AUTO =
    ([], Raise ValueError).
Proof.
  apply (set_hvac_mode_not_offered_fails
           (accepting (sample_data (Some true) 2 2)) None None AUTO).
  simpl. intuition discriminate.
Defined.

(** * Beyond the claims: sequencing of [async_set_hvac_mode] *)

Lemma async_set_hvac_mode_lookup_fails (device : DaikinDevice) (m : HVACMode)
  (e : exn) :
  m <> OFF ->
  _hvac_mode_to_dkn_mode m = Raise e ->
  async_set_hvac_mode device m = ([], Raise e).
Proof.
  intros Hoff He. unfold async_set_hvac_mode. rewrite He. unfold HVACMode_eqb.
  destruct (HVACMode_eq_dec m OFF) as [E|_]; [contradiction|]. reflexivity.
Qed.

Lemma lookup_not_off (m : HVACMode) (code : Z) :
  _hvac_mode_to_dkn_mode m = Ok code -> m <> OFF.
Proof.
  intros H. apply reverse_lookup_key in H. apply offered_not_off.
  now apply (in_map snd) in H.
Qed.

(** X6: with the power field true and a target mode of the table, the only
    call issued is the mode-code update: no power call is made and no host
    state update is scheduled. *)
Theorem set_hvac_mode_while_on (device : DaikinDevice) (m : HVACMode) :
  power (device_data device) = Some true ->
  In m (PyDict.values DKN_MODE_TO_HVAC_MODE) ->
  exists code : Z,
    _hvac_mode_to_dkn_mode m = Ok code /\
    fst (async_set_hvac_mode device m) = [SetDeviceValue "mode" (PInt code)].
Proof.
  intros Hpow Hin.
  destruct (hvac_reverse_lookup_total m Hin) as [code Hcode].
  exists code. split; [exact Hcode|].
  rewrite (async_set_hvac_mode_target device m code
             (offered_not_off m Hin) Hcode), Hpow.
  now destruct (raises device "mode" (PInt code)).
Qed.

Lemma set_hvac_mode_while_on_witness :
  fst (async_set_hvac_mode (accepting (sample_data (Some true) 2 2)) HEAT) =
    [SetDeviceValue "mode" (PInt 3)].
Proof.
  assert (In HEAT (PyDict.values DKN_MODE_TO_HVAC_MODE)) as Hin
    by (simpl; tauto).
  destruct (set_hvac_mode_while_on
              (accepting (sample_data (Some true) 2 2)) HEAT eq_refl Hin)
    as (code & Hcode & Htr).
  injection Hcode as <-. exact Htr.
Defined.

(** X7: a power call is only ever issued to change the power state: its
    value is the opposite of the current state ([power is True]) and equals
    [target != OFF]. *)
Theorem power_call_changes_state (device : DaikinDevice) (m : HVACMode)
  (value : pyval) :
  In (SetDeviceValue "power" value) (fst (async_set_hvac_mode device m)) ->
  value = PBool (negb (is_True (power (device_data device)))) /\
  value = PBool (negb (HVACMode_eqb m OFF)).
Proof.
  destruct (HVACMode_eq_dec m OFF) as [->|Hoff].
  - rewrite async_set_hvac_mode_off.
    destruct (is_True (power (device_data device)));
      [destruct (raises device "power" (PBool false))|]; simpl;
      intuition (try discriminate; try congruence).
  - assert (HVACMode_eqb m OFF = false) as ->.
    { unfold HVACMode_eqb. now destruct (HVACMode_eq_dec m OFF). }
    destruct (_hvac_mode_to_dkn_mode m) as [code|e] eqn:Hcode.
    + rewrite (async_set_hvac_mode_target device m code Hoff Hcode).
      destruct (raises device "mode" (PInt code));
        [|destruct (is_True (power (device_data device)));
          [|destruct (raises device "power" (PBool true))]]; simpl;
        intuition (try discriminate; try congruence).
    + rewrite (async_set_hvac_mode_lookup_fails device m e Hoff Hcode).
      intros [].
Qed.

Lemma power_call_changes_state_witness :
  In (SetDeviceValue "power" (PBool true))
     (fst (async_set_hvac_mode (accepting (sample_data None 2 2)) COOL)) /\
  PBool true = PBool (negb (is_True (power (device_data
                                 (accepting (sample_data None 2 2)))))).
Proof.
  assert (In (SetDeviceValue "power" (PBool true))
            (fst (async_set_hvac_mode (accepting (sample_data None 2 2))
                    COOL))) as Hin by (simpl; tauto).
  split; [exact Hin|].
  exact (proj1 (power_call_changes_state
                  (accepting (sample_data None 2 2)) COOL (PBool true) Hin)).
Defined.

(** X8: a host state update is scheduled only after a power call that the
    vendor accepted, and then the coroutine returns normally; a run that
    ends in an exception has scheduled nothing. *)
Theorem schedule_only_after_power (device : DaikinDevice) (m : HVACMode) :
  In ScheduleUpdateHaState (fst (async_set_hvac_mode device m)) ->
  snd (async_set_hvac_mode device m) = Ok tt /\
  exists b : bool,
    In (SetDeviceValue "power" (PBool b)) (fst (async_set_hvac_mode device m))
    /\ raises device "power" (PBool b) = None.
Proof.
  destruct (HVACMode_eq_dec m OFF) as [->|Hoff].
  - rewrite async_set_hvac_mode_off.
    destruct (is_True (power (device_data device)));
      [destruct (raises device "power" (PBool false)) eqn:Hr|]; simpl;
      intros H; try (intuition discriminate).
    split; [reflexivity|]. exists false. auto.
  - destruct (_hvac_mode_to_dkn_mode m) as [code|e] eqn:Hcode.
    + rewrite (async_set_hvac_mode_target device m code Hoff Hcode).
      destruct (raises device "mode" (PInt code));
        [|destruct (is_True (power (device_data device)));
          [|destruct (raises device "power" (PBool true)) eqn:Hr]]; simpl;
        intros H; try (intuition discriminate).
      split; [reflexivity|]. exists true. auto.
    + rewrite (async_set_hvac_mode_lookup_fails device m e Hoff Hcode).
      intros [].
Qed.

Lemma schedule_only_after_power_witness :
  In ScheduleUpdateHaState
     (fst (async_set_hvac_mode (accepting (sample_data (Some true) 2 2))
             OFF)) /\
  snd (async_set_hvac_mode (accepting (sample_data (Some true) 2 2)) OFF) =
    Ok tt.
Proof.
  assert (In ScheduleUpdateHaState
            (fst (async_set_hvac_mode
                    (accepting (sample_data (Some true) 2 2)) OFF))) as Hin
    by (simpl; tauto).
  split; [exact Hin|].
  exact (proj1 (schedule_only_after_power
                  (accepting (sample_data (Some true) 2 2)) OFF Hin)).
Defined.

(** X9: when the vendor's mode call raises, [async_set_hvac_mode] ends in
    that very exception after the one call: the power call is not made and
    nothing is scheduled, whatever the power state. *)
Theorem set_hvac_mode_mode_call_fails (device : DaikinDevice) (m : HVACMode)
  (code : Z) (e : exn) :
  _hvac_mode_to_dkn_mode m = Ok code ->
  raises device "mode" (PInt code) = Some e ->
  async_set_hvac_mode device m =
    ([SetDeviceValue "mode" (PInt code)], Raise e).
Proof.
  intros Hcode He.
  rewrite (async_set_hvac_mode_target device m code
             (lookup_not_off m code Hcode) Hcode), He.
  reflexivity.
Qed.

Lemma set_hvac_mode_mode_call_fails_witness :
  async_set_hvac_mode (failing (sample_data (Some false) 2 2)) COOL =
    ([SetDeviceValue "mode" (PInt 2)], Raise (OtherException "ClientError")).
Proof.
  apply (set_hvac_mode_mode_call_fails
           (failing (sample_data (Some false) 2 2)) COOL 2
           (OtherException "ClientError")); reflexivity.
Defined.

(** X10: a unit whose power field is neither [True] nor [False] is never
    reported [OFF] by [hvac_mode] (the getter tests [is False]), yet
    [async_set_hvac_mode] counts it as off (it tests [is True]): asking for
    [OFF] sends nothing. *)
Theorem power_unknown_is_not_off (device : DaikinDevice) :
  power (device_data device) = None ->
  hvac_mode device <> Ok OFF /\
  async_set_hvac_mode device OFF = ([], Ok tt).
Proof.
  intros Hpow. split.
  - intros H. destruct (hvac_mode_range device OFF H) as [_|Hin].
    + unfold hvac_mode, PyDict.getitem in H. rewrite Hpow in H.
      cbn [is_False] in H.
      destruct (PyDict.get Z.eq_dec DKN_MODE_TO_HVAC_MODE
                  (mode (device_data device))) as [m|] eqn:Hget;
        [|discriminate].
      injection H as ->. apply get_values in Hget.
      now apply offered_not_off in Hget.
    + now apply offered_not_off in Hin.
  - rewrite async_set_hvac_mode_off, Hpow. reflexivity.
Qed.

Lemma power_unknown_is_not_off_witness :
  hvac_mode (accepting (sample_data None 2 2)) <> Ok OFF /\
  async_set_hvac_mode (accepting (sample_data None 2 2)) OFF = ([], Ok tt).
Proof.
  apply (power_unknown_is_not_off (accepting (sample_data None 2 2))).
  reflexivity.
Defined.

(** * Beyond the claims: the fan *)

Lemma async_set_fan_mode_run (device : DaikinDevice) (f : string) (code : Z) :
  _fan_mode_to_dkn_mode f = Ok code ->
  async_set_fan_mode device f =
    ([SetDeviceValue "speed_state" (PInt code)],
     match raises device "speed_state" (PInt code) with
     | Some e => Raise e
     | None => Ok tt
     end).
Proof.
  intros H. unfold async_set_fan_mode, set_device_value. rewrite H.
  reflexivity.
Qed.

Lemma fan_code_forward (f : string) (code : Z) :
  _fan_mode_to_dkn_mode f = Ok code ->
  PyDict.getitem Z.eq_dec DKN_MODE_TO_FAN_MODE code = Ok f.
Proof.
  intros H. apply reverse_lookup_key in H. unfold PyDict.getitem.
  now rewrite (In_get Z.eq_dec _ _ _ fan_table_keys_distinct H).
Qed.

(** X11: for a fan mode of [fan_modes], [async_set_fan_mode] issues exactly
    one call, the speed code that the forward table maps to that fan mode,
    and ends as the vendor's call does: an exception of the vendor is
    passed on as it is. *)
Theorem set_fan_mode_known (device : DaikinDevice) (f : string) :
  In f fan_modes ->
  exists code : Z,
    PyDict.getitem Z.eq_dec DKN_MODE_TO_FAN_MODE code = Ok f /\
    async_set_fan_mode device f =
      ([SetDeviceValue "speed_state" (PInt code)],
       match raises device "speed_state" (PInt code) with
       | Some e => Raise e
       | None => Ok tt
       end).
Proof.
  intros Hin. destruct (fan_reverse_lookup_total f Hin) as [code Hcode].
  exists code. split.
  - now apply fan_code_forward.
  - now apply async_set_fan_mode_run.
Qed.

Lemma set_fan_mode_known_witness :
  async_set_fan_mode (failing (sample_data (Some true) 2 2)) FAN_HIGH =
    ([SetDeviceValue "speed_state" (PInt 6)],
     Raise (OtherException "ClientError")).
Proof.
  assert (In FAN_HIGH fan_modes) as Hin by (simpl; tauto).
  destruct (set_fan_mode_known (failing (sample_data (Some true) 2 2))
              FAN_HIGH Hin) as (code & Hfwd & Hrun).
  rewrite Hrun.
  assert (_fan_mode_to_dkn_mode FAN_HIGH = Ok code) as Hcode.
  { unfold _fan_mode_to_dkn_mode.
    apply (reverse_lookup_getitem Z.eq_dec string_dec _ _ _
             fan_table_injective Hfwd). }
  injection Hcode as <-. reflexivity.
Defined.

(** X12: for a string that is not in [fan_modes], [async_set_fan_mode]
    raises [ValueError] and issues no call. *)
Theorem set_fan_mode_unknown (device : DaikinDevice) (f : string) :
  ~ In f fan_modes ->
  async_set_fan_mode device f = ([], Raise ValueError).
Proof.
  intros H. unfold async_set_fan_mode, _fan_mode_to_dkn_mode.
  rewrite (reverse_lookup_absent string_dec _ _ H). reflexivity.
Qed.

Lemma set_fan_mode_unknown_witness :
  async_set_fan_mode (accepting (sample_data (Some true) 2 2)) "on" =
    ([], Raise ValueError).
Proof.
  apply (set_fan_mode_unknown (accepting (sample_data (Some true) 2 2)) "on").
  simpl. intuition discriminate.
Defined.

(** X13: setting the fan mode that the [fan_mode] getter reports sends the
    unit's current speed code again. *)
Theorem set_fan_mode_current (device : DaikinDevice) (f : string) :
  fan_mode device = Ok f ->
  fst (async_set_fan_mode device f) =
    [SetDeviceValue "speed_state"
       (PInt (speed_state (device_data device)))].
Proof.
  unfold fan_mode. intros H.
  rewrite (async_set_fan_mode_run device f (speed_state (device_data device)));
    [reflexivity|].
  exact (reverse_lookup_getitem Z.eq_dec string_dec _ _ _
           fan_table_injective H).
Qed.

Lemma set_fan_mode_current_witness :
  fan_mode (accepting (sample_data (Some true) 2 2)) = Ok FAN_AUTO /\
  fst (async_set_fan_mode (accepting (sample_data (Some true) 2 2)) FAN_AUTO) =
    [SetDeviceValue "speed_state" (PInt 0)].
Proof.
  split; [reflexivity|].
  apply (set_fan_mode_current (accepting (sample_data (Some true) 2 2))
           FAN_AUTO).
  reflexivity.
Defined.

(** X14: whatever the power state, the [fan_mode] getter returns a member
    of [fan_modes] when the speed code is in the table and raises
    [KeyError] when it is not. *)
Theorem fan_mode_range (device : DaikinDevice) :
  (forall f : string, fan_mode device = Ok f -> In f fan_modes) /\
  (In (speed_state (device_data device)) (PyDict.keys DKN_MODE_TO_FAN_MODE) ->
   exists f : string, fan_mode device = Ok f) /\
  (~ In (speed_state (device_data device))
        (PyDict.keys DKN_MODE_TO_FAN_MODE) ->
   fan_mode device = Raise KeyError).
Proof.
  unfold fan_mode, PyDict.getitem. split; [|split].
  - intros f H.
    destruct (PyDict.get Z.eq_dec DKN_MODE_TO_FAN_MODE
                (speed_state (device_data device))) as [f'|] eqn:Hget;
      [|discriminate].
    injection H as ->. exact (get_values Z.eq_dec _ _ _ Hget).
  - intros H. destruct (get_present Z.eq_dec _ _ H) as [f ->]. now exists f.
  - intros H. now rewrite (get_absent Z.eq_dec _ _ H).
Qed.

Lemma fan_mode_range_witness :
  In FAN_AUTO fan_modes /\
  fan_mode {| device_data :=
                {| power := Some false; mode := 2; real_mode := 2;
                   speed_state := 3; work_temp := PNone;
                   setpoint_air_cool := PNone; setpoint_air_heat := PNone;
                   setpoint_air_auto := PNone |};
              raises := fun _ _ => None |} = Raise KeyError.
Proof.
  split.
  - apply (proj1 (fan_mode_range (accepting (sample_data (Some false) 2 2)))
             FAN_AUTO).
    reflexivity.
  - apply fan_mode_range. simpl. intuition discriminate.
Defined.

(** * Beyond the claims: temperatures *)

Lemma hvac_mode_off (device : DaikinDevice) :
  power (device_data device) = Some false -> hvac_mode device = Ok OFF.
Proof. intros H. unfold hvac_mode. now rewrite H. Qed.

Lemma hvac_mode_unknown_code (device : DaikinDevice) :
  power (device_data device) <> Some false ->
  ~ In (mode (device_data device)) (PyDict.keys DKN_MODE_TO_HVAC_MODE) ->
  hvac_mode device = Raise KeyError.
Proof.
  intros Hpow Hmode. unfold hvac_mode.
  destruct (power (device_data device)) as [[|]|]; cbn [is_False];
    try (now apply getitem_absent).
  now contradiction Hpow.
Qed.

Lemma async_set_temperature_getter_fails (device : DaikinDevice)
  (kwargs : PyDict.dict) (e : exn) :
  is_None (kwargs_get kwargs ATTR_TEMPERATURE) = false ->
  hvac_mode device = Raise e ->
  async_set_temperature device kwargs = ([], Raise e).
Proof.
  intros Ht He. unfold async_set_temperature. rewrite Ht, He. reflexivity.
Qed.

(** X15: with a temperature given and the vendor accepting the call,
    [async_set_temperature] issues exactly one call, on the setpoint that
    [target_temperature] reports in the same derived mode (cool, heat or
    auto), with the given temperature, and returns normally. *)
Theorem set_temperature_writes_reported_setpoint (device : DaikinDevice)
  (kwargs : PyDict.dict) :
  is_None (kwargs_get kwargs ATTR_TEMPERATURE) = false ->
  (forall name : string,
      raises device name (kwargs_get kwargs ATTR_TEMPERATURE) = None) ->
  (hvac_mode device = Ok COOL ->
   async_set_temperature device kwargs =
     ([SetDeviceValue "setpoint_air_cool"
         (kwargs_get kwargs ATTR_TEMPERATURE)], Ok tt) /\
   target_temperature device = Ok (setpoint_air_cool (device_data device))) /\
  (hvac_mode device = Ok HEAT ->
   async_set_temperature device kwargs =
     ([SetDeviceValue "setpoint_air_heat"
         (kwargs_get kwargs ATTR_TEMPERATURE)], Ok tt) /\
   target_temperature device = Ok (setpoint_air_heat (device_data device))) /\
  (hvac_mode device = Ok HEAT_COOL ->
   async_set_temperature device kwargs =
     ([SetDeviceValue "setpoint_air_auto"
         (kwargs_get kwargs ATTR_TEMPERATURE)], Ok tt) /\
   target_temperature device = Ok (setpoint_air_auto (device_data device))).
Proof.
  intros Ht Hacc.
  split; [|split]; intros Hm;
    (split;
     [rewrite (async_set_temperature_present device kwargs _ Ht Hm);
      cbv beta iota zeta; now rewrite Hacc
     |unfold target_temperature; now rewrite Hm]).
Qed.

Lemma set_temperature_writes_reported_setpoint_witness :
  async_set_temperature (accepting (sample_data (Some true) 1 1))
    [(ATTR_TEMPERATURE, PFloat (70 # 1))] =
    ([SetDeviceValue "setpoint_air_auto" (PFloat (70 # 1))], Ok tt) /\
  target_temperature (accepting (sample_data (Some true) 1 1)) =
    Ok (PFloat (71 # 1)).
Proof.
  apply (set_temperature_writes_reported_setpoint
           (accepting (sample_data (Some true) 1 1))
           [(ATTR_TEMPERATURE, PFloat (70 # 1))]); reflexivity.
Defined.

(** X16: while the power field is false, [target_temperature] is [None]
    whatever the setpoints and the mode code, and [async_set_temperature]
    with a temperature raises [UpdateFailed] without calling the vendor. *)
Theorem temperature_while_off (device : DaikinDevice)
  (kwargs : PyDict.dict) :
  power (device_data device) = Some false ->
  target_temperature device = Ok PNone /\
  (is_None (kwargs_get kwargs ATTR_TEMPERATURE) = false ->
   async_set_temperature device kwargs =
     ([], Raise (UpdateFailed "Invalid hvac_mode:  %s"))).
Proof.
  intros Hpow. pose proof (hvac_mode_off device Hpow) as Hm. split.
  - unfold target_temperature. now rewrite Hm.
  - intros Ht.
    now rewrite (async_set_temperature_present device kwargs OFF Ht Hm).
Qed.

Lemma temperature_while_off_witness :
  target_temperature (accepting (sample_data (Some false) 2 2)) = Ok PNone /\
  async_set_temperature (accepting (sample_data (Some false) 2 2))
    [(ATTR_TEMPERATURE, PInt 70)] =
    ([], Raise (UpdateFailed "Invalid hvac_mode:  %s")).
Proof.
  destruct (temperature_while_off (accepting (sample_data (Some false) 2 2))
              [(ATTR_TEMPERATURE, PInt 70)] eq_refl) as [Hget Hset].
  split; [exact Hget|]. apply Hset. reflexivity.
Defined.

(** X17: when the unit is not off and its mode code is outside the table,
    [target_temperature] raises [KeyError], and [async_set_temperature]
    with a temperature ends in that [KeyError], not in [UpdateFailed],
    without calling the vendor. *)
Theorem temperature_on_unknown_code (device : DaikinDevice)
  (kwargs : PyDict.dict) :
  power (device_data device) <> Some false ->
  ~ In (mode (device_data device)) (PyDict.keys DKN_MODE_TO_HVAC_MODE) ->
  target_temperature device = Raise KeyError /\
  (is_None (kwargs_get kwargs ATTR_TEMPERATURE) = false ->
   async_set_temperature device kwargs = ([], Raise KeyError)).
Proof.
  intros Hpow Hmode.
  pose proof (hvac_mode_unknown_code device Hpow Hmode) as Hm. split.
  - unfold target_temperature. now rewrite Hm.
  - intros Ht. now apply async_set_temperature_getter_fails.
Qed.

Lemma temperature_on_unknown_code_witness :
  target_temperature (accepting (sample_data (Some true) 7 2)) =
    Raise KeyError /\
  async_set_temperature (accepting (sample_data (Some true) 7 2))
    [(ATTR_TEMPERATURE, PInt 70)] = ([], Raise KeyError).
Proof.
  assert (power (device_data (accepting (sample_data (Some true) 7 2)))
            <> Some false) as Hpow by discriminate.
  assert (~ In (mode (device_data (accepting (sample_data (Some true) 7 2))))
              (PyDict.keys DKN_MODE_TO_HVAC_MODE)) as Hmode
    by (simpl; intuition discriminate).
  destruct (temperature_on_unknown_code
              (accepting (sample_data (Some true) 7 2))
              [(ATTR_TEMPERATURE, PInt 70)] Hpow Hmode) as [Hget Hset].
  split; [exact Hget|]. apply Hset. reflexivity.
Defined.

(** X18: whatever the device, the vendor and the arguments,
    [async_set_temperature] issues at most one call, always on one of the
    three setpoints and with the given temperature, never schedules a host
    state update, and ends normally, in [UpdateFailed] or in [KeyError]. *)
Theorem set_temperature_footprint (device : DaikinDevice)
  (kwargs : PyDict.dict) :
  (List.length (fst (async_set_temperature device kwargs)) <= 1)%nat /\
  (forall ev : event,
      In ev (fst (async_set_temperature device kwargs)) ->
      exists name : string,
        ev = SetDeviceValue name (kwargs_get kwargs ATTR_TEMPERATURE) /\
        In name ["setpoint_air_cool"; "setpoint_air_heat";
                 "setpoint_air_auto"]) /\
  (forall e : exn,
      snd (async_set_temperature device kwargs) = Raise e ->
      e = KeyError \/ exists msg : string, e = UpdateFailed msg).
Proof.
  destruct (is_None (kwargs_get kwargs ATTR_TEMPERATURE)) eqn:Ht.
  - rewrite async_set_temperature_missing
      by (destruct (kwargs_get kwargs ATTR_TEMPERATURE);
          (reflexivity || discriminate)).
    simpl. split; [lia|]. split; [intros ev []|].
    intros e [= <-]. right. now eexists.
  - destruct (hvac_mode device) as [m|e'] eqn:Hm.
    + rewrite (async_set_temperature_present device kwargs m Ht Hm).
      destruct m; cbv beta iota zeta;
        try match goal with
            | |- context [raises ?s ?p ?t] => destruct (raises s p t)
            end;
        simpl; (split; [lia|]);
        (split;
         [intros ev Hin;
          first [contradiction
                |destruct Hin as [<-|[]]; eexists;
                 split; [reflexivity|simpl; tauto]]
         |intros e0 He;
          first [discriminate|injection He as <-; right; now eexists]]).
    + rewrite (async_set_temperature_getter_fails device kwargs e' Ht Hm).
      simpl. split; [lia|]. split; [intros ev []|].
      intros e [= <-]. left.
      unfold hvac_mode, PyDict.getitem in Hm.
      destruct (is_False (power (device_data device))); [discriminate|].
      destruct (PyDict.get Z.eq_dec DKN_MODE_TO_HVAC_MODE
                  (mode (device_data device))); [discriminate|].
      now injection Hm.
Qed.

Lemma set_temperature_footprint_witness :
  In (SetDeviceValue "setpoint_air_cool" (PInt 70))
     (fst (async_set_temperature (failing (sample_data (Some true) 2 2))
             [(ATTR_TEMPERATURE, PInt 70)])) /\
  (List.length (fst (async_set_temperature (failing (sample_data (Some true) 2 2))
                  [(ATTR_TEMPERATURE, PInt 70)])) <= 1)%nat.
Proof.
  split; [simpl; tauto|].
  exact (proj1 (set_temperature_footprint
                  (failing (sample_data (Some true) 2 2))
                  [(ATTR_TEMPERATURE, PInt 70)])).
Defined.

(** X19: when the mode code and the actual operating code are the same,
    [hvac_action] reports the mode that [hvac_mode] returns. *)
Theorem hvac_action_agrees (device : DaikinDevice) (m : HVACMode) :
  real_mode (device_data device) = mode (device_data device) ->
  hvac_mode device = Ok m ->
  hvac_action device = Some m.
Proof.
  unfold hvac_mode, hvac_action, PyDict.getitem. intros ->.
  destruct (is_False (power (device_data device))); [now intros [= ->]|].
  destruct (PyDict.get Z.eq_dec DKN_MODE_TO_HVAC_MODE
              (mode (device_data device))); [now intros [= ->]|discriminate].
Qed.

Lemma hvac_action_agrees_witness :
  hvac_action (accepting (sample_data (Some true) 5 5)) = Some DRY.
Proof.
  apply (hvac_action_agrees (accepting (sample_data (Some true) 5 5)) DRY);
    reflexivity.
Defined.

(** * Beyond the claims: set-up and unload of a configuration entry *)

Section DictMutFacts.
Context {K V : Type}.
Variable K_eq_dec : forall a b : K, {a = b} + {a <> b}.
Implicit Types (d : PyDict.dict (K := K) (V := V)) (k : K) (v : V).

Lemma get_setitem_eq d k v :
  PyDict.get K_eq_dec (PyDictMut.setitem K_eq_dec d k v) k = Some v.
Proof.
  induction d as [|[k' v'] d IH]; simpl.
  - now destruct (K_eq_dec k k).
  - destruct (K_eq_dec k' k) as [E|N]; simpl.
    + now destruct (K_eq_dec k' k).
    + now destruct (K_eq_dec k' k).
Qed.

Lemma get_setitem_ne d k k0 v :
  k0 <> k ->
  PyDict.get K_eq_dec (PyDictMut.setitem K_eq_dec d k v) k0 =
    PyDict.get K_eq_dec d k0.
Proof.
  intros Hne. induction d as [|[k' v'] d IH]; simpl.
  - destruct (K_eq_dec k k0) as [E|_]; [now subst|reflexivity].
  - destruct (K_eq_dec k' k) as [E|N]; simpl.
    + destruct (K_eq_dec k' k0) as [E0|_]; [subst; contradiction|reflexivity].
    + now rewrite IH.
Qed.

(** Storing under a fresh key and popping it again gives the dict back. *)
Lemma pop_setitem_fresh d k v :
  PyDict.get K_eq_dec d k = None ->
  PyDictMut.pop K_eq_dec (PyDictMut.setitem K_eq_dec d k v) k = Ok (v, d).
Proof.
  induction d as [|[k' v'] d IH]; simpl.
  - intros _. now destruct (K_eq_dec k k).
  - destruct (K_eq_dec k' k) as [E|N]; [discriminate|]. intros H. simpl.
    destruct (K_eq_dec k' k) as [E|_]; [contradiction|]. now rewrite IH.
Qed.

Lemma pop_absent d k :
  PyDict.get K_eq_dec d k = None ->
  PyDictMut.pop K_eq_dec d k = Raise KeyError.
Proof.
  induction d as [|[k' v'] d IH]; simpl; [reflexivity|].
  destruct (K_eq_dec k' k) as [E|N]; [discriminate|]. intros H.
  now rewrite IH.
Qed.

Lemma pop_present d k v :
  PyDict.get K_eq_dec d k = Some v ->
  exists d', PyDictMut.pop K_eq_dec d k = Ok (v, d') /\
    (forall k0, k0 <> k ->
       PyDict.get K_eq_dec d' k0 = PyDict.get K_eq_dec d k0) /\
    (NoDup (PyDict.keys d) -> PyDict.get K_eq_dec d' k = None).
Proof.
  unfold PyDict.keys.
  induction d as [|[k' v'] d IH]; simpl; [discriminate|].
  destruct (K_eq_dec k' k) as [E|N].
  - intros [= ->]. exists d. split; [reflexivity|]. split.
    + intros k0 Hne. destruct (K_eq_dec k' k0) as [E0|_]; [|reflexivity].
      subst. contradiction.
    + intros Hnd. inversion Hnd as [|? ? Hfresh _]; subst.
      now apply get_absent.
  - intros H. destruct (IH H) as (d' & -> & Hother & Hgone).
    exists ((k', v') :: d'). split; [reflexivity|]. split.
    + intros k0 Hne. simpl.
      destruct (K_eq_dec k' k0); [reflexivity|now apply Hother].
    + intros Hnd. inversion Hnd as [|? ? _ Hnd']; subst. simpl.
      destruct (K_eq_dec k' k) as [E|_]; [contradiction|]. now apply Hgone.
Qed.
End DictMutFacts.

Lemma hass_entry_setdefault (hass : HassData) (id : string) :
  hass_entry (setdefault_domain hass) id = hass_entry hass id.
Proof. now destruct hass. Qed.

(** The run of [Init.async_setup_entry] once the credentials are read and
    the login has succeeded. *)
Lemma init_setup_logged_in (out : Outside) (hass : HassData)
  (entry : ConfigEntry) (email password : string) (c : DaikinCloud) :
  PyDict.getitem string_dec (ce_data entry) CONF_EMAIL = Ok email ->
  PyDict.getitem string_dec (ce_data entry) CONF_PASSWORD = Ok password ->
  login out email password = Ok c ->
  Init.async_setup_entry out hass entry =
    (Some (PyDictMut.setitem string_dec
             (match hass with Some bucket => bucket | None => [] end)
             (ce_entry_id entry)
             {| entry_id := ce_entry_id entry; client := c |}),
     match async_forward_entry_setups out entry with
     | Some e => Raise e
     | None => Ok true
     end).
Proof.
  intros He Hp Hl. unfold Init.async_setup_entry. rewrite He, Hp, Hl.
  destruct hass as [bucket|]; cbn [setdefault_domain];
    now destruct (async_forward_entry_setups out entry).
Qed.

(** What the platforms find after a set-up whose login succeeded. *)
Lemma setup_stores_entry_run (out : Outside) (hass : HassData)
  (entry : ConfigEntry) (email password : string) (c : DaikinCloud) :
  PyDict.getitem string_dec (ce_data entry) CONF_EMAIL = Ok email ->
  PyDict.getitem string_dec (ce_data entry) CONF_PASSWORD = Ok password ->
  login out email password = Ok c ->
  hass_entry (fst (Init.async_setup_entry out hass entry))
    (ce_entry_id entry) =
    Ok {| entry_id := ce_entry_id entry; client := c |}.
Proof.
  intros He Hp Hl.
  rewrite (init_setup_logged_in out hass entry email password c He Hp Hl).
  cbn [fst hass_entry]. unfold PyDict.getitem.
  now rewrite get_setitem_eq.
Qed.

Lemma setup_login_failure_run (out : Outside) (hass : HassData)
  (entry : ConfigEntry) (email password : string) (e : exn) :
  PyDict.getitem string_dec (ce_data entry) CONF_EMAIL = Ok email ->
  PyDict.getitem string_dec (ce_data entry) CONF_PASSWORD = Ok password ->
  login out email password = Raise e ->
  Init.async_setup_entry out hass entry = (setdefault_domain hass, Raise e).
Proof.
  intros He Hp Hl. unfold Init.async_setup_entry. now rewrite He, Hp, Hl.
Qed.

(** X20: once the credentials are read and the login succeeds,
    [async_setup_entry] stores the entry's [DaikinData] (its id and the
    logged-in client) under the entry id, where the platforms look it up;
    it returns [True], or passes on the exception of the platform
    forwarding, in which case the data stays stored. *)
Theorem setup_stores_entry (out : Outside) (hass : HassData)
  (entry : ConfigEntry) (email password : string) (c : DaikinCloud) :
  PyDict.getitem string_dec (ce_data entry) CONF_EMAIL = Ok email ->
  PyDict.getitem string_dec (ce_data entry) CONF_PASSWORD = Ok password ->
  login out email password = Ok c ->
  hass_entry (fst (Init.async_setup_entry out hass entry))
    (ce_entry_id entry) =
    Ok {| entry_id := ce_entry_id entry; client := c |} /\
  snd (Init.async_setup_entry out hass entry) =
    match async_forward_entry_setups out entry with
    | Some e => Raise e
    | None => Ok true
    end.
Proof.
  intros He Hp Hl.
  rewrite (init_setup_logged_in out hass entry email password c He Hp Hl).
  split; [|reflexivity]. cbn [fst hass_entry]. unfold PyDict.getitem.
  now rewrite get_setitem_eq.
Qed.

Lemma setup_stores_entry_witness :
  hass_entry (fst (Init.async_setup_entry (sample_outside true) None
                     sample_entry)) "entry-1" =
    Ok {| entry_id := "entry-1"; client := sample_client |} /\
  snd (Init.async_setup_entry (sample_outside true) None sample_entry) =
    Ok true.
Proof.
  apply (setup_stores_entry (sample_outside true) None sample_entry
           "a@b.c" "secret" sample_client); reflexivity.
Defined.

(** X21: [async_setup_entry] never changes what is stored for another
    entry id, however it ends. *)
Theorem setup_keeps_other_entries (out : Outside) (hass : HassData)
  (entry : ConfigEntry) (id : string) :
  id <> ce_entry_id entry ->
  hass_entry (fst (Init.async_setup_entry out hass entry)) id =
    hass_entry hass id.
Proof.
  intros Hne. unfold Init.async_setup_entry.
  destruct (PyDict.getitem string_dec (ce_data entry) CONF_EMAIL)
    as [email|e]; [|apply hass_entry_setdefault].
  destruct (PyDict.getitem string_dec (ce_data entry) CONF_PASSWORD)
    as [password|e]; [|apply hass_entry_setdefault].
  destruct (login out email password) as [c|e];
    [|apply hass_entry_setdefault].
  assert (forall bucket,
             hass_entry
               (Some (PyDictMut.setitem string_dec bucket (ce_entry_id entry)
                        {| entry_id := ce_entry_id entry; client := c |}))
               id = hass_entry (Some bucket) id) as Hset.
  { intros bucket. cbn [hass_entry]. unfold PyDict.getitem.
    now rewrite get_setitem_ne. }
  destruct hass as [bucket|]; cbn [setdefault_domain];
    destruct (async_forward_entry_setups out entry); cbn [fst];
    rewrite Hset; reflexivity.
Qed.

Lemma setup_keeps_other_entries_witness :
  hass_entry
    (fst (Init.async_setup_entry (sample_outside true)
            (Some [("entry-0", {| entry_id := "entry-0";
                                  client := {| devices := [] |} |})])
            sample_entry)) "entry-0" =
    Ok {| entry_id := "entry-0"; client := {| devices := [] |} |}.
Proof.
  rewrite (setup_keeps_other_entries (sample_outside true)
             (Some [("entry-0", {| entry_id := "entry-0";
                                   client := {| devices := [] |} |})])
             sample_entry "entry-0"); [reflexivity|discriminate].
Defined.

(** X22: a configuration entry without the email or without the password
    makes [async_setup_entry] raise [KeyError] with nothing stored. *)
Theorem setup_missing_credentials (out : Outside) (hass : HassData)
  (entry : ConfigEntry) :
  ~ In CONF_EMAIL (PyDict.keys (ce_data entry)) \/
  ~ In CONF_PASSWORD (PyDict.keys (ce_data entry)) ->
  Init.async_setup_entry out hass entry =
    (setdefault_domain hass, Raise KeyError).
Proof.
  intros H. unfold Init.async_setup_entry.
  destruct (PyDict.getitem string_dec (ce_data entry) CONF_EMAIL)
    as [email|e] eqn:He.
  - destruct H as [H|H].
    + rewrite (getitem_absent string_dec _ _ H) in He. discriminate.
    + now rewrite (getitem_absent string_dec _ _ H).
  - destruct H as [H|H].
    + rewrite (getitem_absent string_dec _ _ H) in He. now injection He as <-.
    + unfold PyDict.getitem in He.
      destruct (PyDict.get string_dec (ce_data entry) CONF_EMAIL);
        [discriminate|]. now injection He as <-.
Qed.

Lemma setup_missing_credentials_witness :
  Init.async_setup_entry (sample_outside true) None
    {| ce_entry_id := "entry-2"; ce_data := [(CONF_EMAIL, "a@b.c")] |} =
    (Some [], Raise KeyError).
Proof.
  apply (setup_missing_credentials (sample_outside true) None
           {| ce_entry_id := "entry-2"; ce_data := [(CONF_EMAIL, "a@b.c")] |}).
  right. simpl. intuition discriminate.
Defined.

Lemma hass_entry_absent (hass : HassData) (id : string) (e : exn) :
  hass_entry hass id = Raise e ->
  e = KeyError /\
  PyDict.get string_dec
    (match hass with Some bucket => bucket | None => [] end) id = None.
Proof.
  destruct hass as [bucket|]; simpl.
  - unfold PyDict.getitem.
    destruct (PyDict.get string_dec bucket id); [discriminate|].
    intros [= <-]. now split.
  - intros [= <-]. now split.
Qed.

(** X23: setting up an entry that was not stored and then unloading it,
    with the platforms unloading fine, leaves [hass.data[DOMAIN]] as it was
    before the set-up (an empty dict if the slot was missing), and the
    unload returns [True]. *)
Theorem setup_then_unload (out : Outside) (hass : HassData)
  (entry : ConfigEntry) (email password : string) (c : DaikinCloud)
  (e : exn) :
  PyDict.getitem string_dec (ce_data entry) CONF_EMAIL = Ok email ->
  PyDict.getitem string_dec (ce_data entry) CONF_PASSWORD = Ok password ->
  login out email password = Ok c ->
  async_unload_platforms out entry = Ok true ->
  hass_entry hass (ce_entry_id entry) = Raise e ->
  Init.async_unload_entry out
    (fst (Init.async_setup_entry out hass entry)) entry =
    (setdefault_domain hass, Ok true).
Proof.
  intros He Hp Hl Hu Habs.
  rewrite (init_setup_logged_in out hass entry email password c He Hp Hl).
  destruct (hass_entry_absent hass _ e Habs) as [_ Hget].
  unfold Init.async_unload_entry. rewrite Hu. cbn [fst].
  rewrite (pop_setitem_fresh string_dec _ _ _ Hget).
  now destruct hass.
Qed.

Lemma setup_then_unload_witness :
  Init.async_unload_entry (sample_outside true)
    (fst (Init.async_setup_entry (sample_outside true) None sample_entry))
    sample_entry = (Some [], Ok true).
Proof.
  apply (setup_then_unload (sample_outside true) None sample_entry
           "a@b.c" "secret" sample_client KeyError); reflexivity.
Defined.

(** X24: unless the platforms unload with a true result,
    [async_unload_entry] leaves [hass.data] untouched and ends as the
    platform unload did: the false result is returned, an exception is
    passed on. *)
Theorem unload_refused_keeps_data (out : Outside) (hass : HassData)
  (entry : ConfigEntry) :
  async_unload_platforms out entry <> Ok true ->
  Init.async_unload_entry out hass entry =
    (hass, async_unload_platforms out entry).
Proof.
  intros H. unfold Init.async_unload_entry.
  destruct (async_unload_platforms out entry) as [[|]|e];
    [contradiction|reflexivity..].
Qed.

Lemma unload_refused_keeps_data_witness :
  Init.async_unload_entry (sample_outside false)
    (fst (Init.async_setup_entry (sample_outside false) None sample_entry))
    sample_entry =
    (fst (Init.async_setup_entry (sample_outside false) None sample_entry),
     Ok false).
Proof.
  apply (unload_refused_keeps_data (sample_outside false)
           (fst (Init.async_setup_entry (sample_outside false) None
                   sample_entry)) sample_entry).
  discriminate.
Defined.

(** X25: unloading an entry that is not stored, with the platforms
    unloading fine, raises [KeyError] (the [pop] has no default) and
    changes nothing. *)
Theorem unload_unknown_entry (out : Outside) (hass : HassData)
  (entry : ConfigEntry) (e : exn) :
  async_unload_platforms out entry = Ok true ->
  hass_entry hass (ce_entry_id entry) = Raise e ->
  Init.async_unload_entry out hass entry = (hass, Raise KeyError).
Proof.
  intros Hu Habs. destruct (hass_entry_absent hass _ e Habs) as [_ Hget].
  unfold Init.async_unload_entry. rewrite Hu.
  destruct hass as [bucket|]; [|reflexivity].
  now rewrite (pop_absent string_dec _ _ Hget).
Qed.

Lemma unload_unknown_entry_witness :
  Init.async_unload_entry (sample_outside true) (Some []) sample_entry =
    (Some [], Raise KeyError).
Proof.
  apply (unload_unknown_entry (sample_outside true) (Some []) sample_entry
           KeyError); reflexivity.
Defined.

(** X26: unloading a stored entry, with the platforms unloading fine,
    returns [True], removes that entry and leaves every other entry as it
    was. *)
Theorem unload_removes_entry (out : Outside)
  (bucket : PyDict.dict (K := string) (V := DaikinData))
  (entry : ConfigEntry) (data : DaikinData) :
  NoDup (PyDict.keys bucket) ->
  async_unload_platforms out entry = Ok true ->
  hass_entry (Some bucket) (ce_entry_id entry) = Ok data ->
  snd (Init.async_unload_entry out (Some bucket) entry) = Ok true /\
  hass_entry (fst (Init.async_unload_entry out (Some bucket) entry))
    (ce_entry_id entry) = Raise KeyError /\
  (forall id : string,
      id <> ce_entry_id entry ->
      hass_entry (fst (Init.async_unload_entry out (Some bucket) entry)) id =
        hass_entry (Some bucket) id).
Proof.
  intros Hnd Hu Hin. cbn [hass_entry] in Hin. unfold PyDict.getitem in Hin.
  destruct (PyDict.get string_dec bucket (ce_entry_id entry)) as [d|] eqn:Hget;
    [|discriminate].
  destruct (pop_present string_dec _ _ _ Hget) as (b' & Hpop & Hother & Hgone).
  unfold Init.async_unload_entry. rewrite Hu, Hpop. cbn [fst snd hass_entry].
  unfold PyDict.getitem. split; [reflexivity|]. split.
  - now rewrite (Hgone Hnd).
  - intros id Hne. now rewrite (Hother id Hne).
Qed.

Lemma unload_removes_entry_witness :
  snd (Init.async_unload_entry (sample_outside true)
         (Some [("entry-0", {| entry_id := "entry-0";
                               client := {| devices := [] |} |});
                ("entry-1", {| entry_id := "entry-1";
                               client := sample_client |})])
         sample_entry) = Ok true /\
  hass_entry
    (fst (Init.async_unload_entry (sample_outside true)
            (Some [("entry-0", {| entry_id := "entry-0";
                                  client := {| devices := [] |} |});
                   ("entry-1", {| entry_id := "entry-1";
                                  client := sample_client |})])
            sample_entry)) "entry-1" = Raise KeyError.
Proof.
  destruct (unload_removes_entry (sample_outside true)
              [("entry-0", {| entry_id := "entry-0";
                              client := {| devices := [] |} |});
               ("entry-1", {| entry_id := "entry-1";
                              client := sample_client |})]
              sample_entry
              {| entry_id := "entry-1"; client := sample_client |})
    as (Hret & Hgone & _).
  - simpl. nodup_by_cases.
  - reflexivity.
  - reflexivity.
  - split; [exact Hret|exact Hgone].
Defined.

(** X27: after a set-up whose login succeeded, the climate platform's
    [async_setup_entry] finds the stored client and hands the host one
    entity per device of that client, in order, each with away
    temperatures 80 and 50 and the away flag off. *)
Theorem climate_setup_after_init (out : Outside) (hass : HassData)
  (entry : ConfigEntry) (email password : string) (c : DaikinCloud) :
  PyDict.getitem string_dec (ce_data entry) CONF_EMAIL = Ok email ->
  PyDict.getitem string_dec (ce_data entry) CONF_PASSWORD = Ok password ->
  login out email password = Ok c ->
  exists entities : list DaikinNADevice,
    Climate.async_setup_entry
      (fst (Init.async_setup_entry out hass entry)) entry = Ok entities /\
    map _device entities = devices c /\
    Forall (fun entity =>
              _cool_away_temp entity = Some 80 /\
              _heat_away_temp entity = Some 50 /\
              _away entity = false) entities.
Proof.
  intros He Hp Hl.
  pose proof (setup_stores_entry_run out hass entry email password c
                He Hp Hl) as Hstored.
  unfold Climate.async_setup_entry. rewrite Hstored. cbn [client].
  eexists. split; [reflexivity|]. split.
  - rewrite map_map. cbn [_device DaikinNADevice_init]. apply map_id.
  - apply Forall_forall. intros entity Hin. apply in_map_iff in Hin.
    destruct Hin as (d & <- & _). now repeat split.
Qed.

Lemma climate_setup_after_init_witness :
  exists entities : list DaikinNADevice,
    Climate.async_setup_entry
      (fst (Init.async_setup_entry (sample_outside true) None sample_entry))
      sample_entry = Ok entities /\
    map _device entities = devices sample_client /\
    Forall (fun entity =>
              _cool_away_temp entity = Some 80 /\
              _heat_away_temp entity = Some 50 /\
              _away entity = false) entities.
Proof.
  apply (climate_setup_after_init (sample_outside true) None sample_entry
           "a@b.c" "secret" sample_client); reflexivity.
Defined.

(** X28: for an entry that is not stored (the set-up did not run, or its
    login failed), the climate platform's [async_setup_entry] raises
    [KeyError] and creates no entity. *)
Theorem climate_setup_without_init (out : Outside) (hass : HassData)
  (entry : ConfigEntry) (email password : string) (e e' : exn) :
  PyDict.getitem string_dec (ce_data entry) CONF_EMAIL = Ok email ->
  PyDict.getitem string_dec (ce_data entry) CONF_PASSWORD = Ok password ->
  login out email password = Raise e ->
  hass_entry hass (ce_entry_id entry) = Raise e' ->
  Climate.async_setup_entry
    (fst (Init.async_setup_entry out hass entry)) entry = Raise KeyError.
Proof.
  intros He Hp Hl Habs.
  rewrite (setup_login_failure_run out hass entry email password e He Hp Hl).
  cbn [fst]. unfold Climate.async_setup_entry.
  rewrite hass_entry_setdefault, Habs.
  now destruct (hass_entry_absent hass _ e' Habs) as [-> _].
Qed.

Lemma climate_setup_without_init_witness :
  Climate.async_setup_entry
    (fst (Init.async_setup_entry
            {| login := fun _ _ => Raise (OtherException "LoginError");
               async_forward_entry_setups := fun _ => None;
               async_unload_platforms := fun _ => Ok true |}
            None sample_entry)) sample_entry = Raise KeyError.
Proof.
  apply (climate_setup_without_init
           {| login := fun _ _ => Raise (OtherException "LoginError");
              async_forward_entry_setups := fun _ => None;
              async_unload_platforms := fun _ => Ok true |}
           None sample_entry "a@b.c" "secret"
           (OtherException "LoginError") KeyError); reflexivity.
Defined.
